(** * MultiOutputGP: a collection of independent Gaussian-process emulators

    A shallow embedding of [mogp_emulator/MultiOutputGP.py] and the properties
    of its constructor, its accessors, [learn_hyperparameters] and [predict].

    The class drives two collaborators that live outside the repository: the
    single-output engine [gp_emulator.GaussianProcess] and the worker pool
    [multiprocessing.Pool].  The engine is an interface (a type class); the
    pool is modelled with its chunking and an arbitrary completion order. *)

From Stdlib Require Import String.
From Stdlib Require Import List ZArith QArith Bool Arith Lia.
From Stdlib Require Import Ascii DecimalString DecimalNat.
Import ListNotations.
Close Scope Q_scope.
Open Scope string_scope.
Open Scope list_scope.
Open Scope nat_scope.

(** ** Python exceptions and the monad of a method body *)

Inductive exn : Type :=
| ValueError (msg : string)
| AssertionError (msg : string)
| TypeError (msg : string)
| IndexError (msg : string)
| EngineError (msg : string).

Inductive outcome (A : Type) : Type :=
| Ok (a : A)
| Raise (e : exn).

Arguments Ok {A} a.
Arguments Raise {A} e.

(** A computation over a mutable state [S]: it returns or raises, and in both
    cases leaves the state it reached. *)
Definition M (S A : Type) : Type := S -> outcome A * S.

Definition ret {S A} (a : A) : M S A := fun s => (Ok a, s).

Definition raise {S A} (e : exn) : M S A := fun s => (Raise e, s).

Definition bind {S A B} (c : M S A) (k : A -> M S B) : M S B :=
  fun s =>
    match c s with
    | (Ok a, s') => k a s'
    | (Raise e, s') => (Raise e, s')
    end.

Declare Scope py_scope.
Delimit Scope py_scope with py.
Notation "x <- c ;; k" := (bind c (fun x => k))
  (at level 61, c at next level, right associativity) : py_scope.
Notation "c ;; k" := (bind c (fun _ => k))
  (at level 61, right associativity) : py_scope.
Open Scope py_scope.

(** [assert cond, msg] *)
Definition assert {S} (cond : bool) (msg : string) : M S unit :=
  if cond then ret tt else raise (AssertionError msg).

(** A pure step that may raise, run inside a method. *)
Definition liftO {S A} (o : outcome A) : M S A := fun s => (o, s).

(** The elements of a list handled in order, stopping at the first raise. *)
Fixpoint mapM {S A B} (f : A -> M S B) (l : list A) : M S (list B) :=
  match l with
  | [] => ret []
  | x :: l' => y <- f x ;; ys <- mapM f l' ;; ret (y :: ys)
  end.

(** The same without a state. *)
Fixpoint mapO {A B} (f : A -> outcome B) (l : list A) : outcome (list B) :=
  match l with
  | [] => Ok []
  | x :: l' =>
      match f x with
      | Ok y => match mapO f l' with Ok ys => Ok (y :: ys) | Raise e => Raise e end
      | Raise e => Raise e
      end
  end.

(** ** Python numbers given where an integer is expected *)

(** An [int], or a finite [float] (every finite float is a rational). *)
Inductive pynum : Type :=
| PyInt (z : Z)
| PyFloat (q : Q).

(** [int(x)]: the identity on an [int], truncation toward zero on a [float]. *)
Definition py_int (x : pynum) : Z :=
  match x with
  | PyInt z => z
  | PyFloat q => Z.quot (Qnum q) (Z.pos (Qden q))
  end.

(** [str(k)] of a non-negative [int]: its decimal digits. *)
Definition py_str (k : nat) : string :=
  NilEmpty.string_of_uint (Nat.to_uint k).

(** The line feed of a Python string literal. *)
Definition newline : string := String (ascii_of_nat 10) EmptyString.

(** ** numpy arrays *)

Section Numpy.

Variable F : Type.

(** An array is its shape and its elements in row-major order. *)
Record ndarray : Type := mk_ndarray {
  shape : list nat;
  data : list F
}.

Definition size_of (sh : list nat) : nat := fold_right Nat.mul 1 sh.

(** What [np.array] yields from a rectangular array-like: as many elements as
    the shape says. *)
Definition wf_ndarray (a : ndarray) : Prop :=
  length (data a) = size_of (shape a).

Definition wf_ndarrayb (a : ndarray) : bool :=
  length (data a) =? size_of (shape a).

(** [len(a.shape)] *)
Definition ndim (a : ndarray) : nat := length (shape a).

(** [a.shape[i]] *)
Definition shape_at (a : ndarray) (i : nat) : outcome nat :=
  match nth_error (shape a) i with
  | Some d => Ok d
  | None => Raise (IndexError "tuple index out of range")
  end.

(** [len(a)] *)
Definition py_len (a : ndarray) : outcome nat :=
  match shape a with
  | d :: _ => Ok d
  | [] => Raise (TypeError "len() of unsized object")
  end.

(** [np.array(x)] of a flat Python sequence. *)
Definition np_array1 (x : list F) : ndarray :=
  {| shape := [length x]; data := x |}.

(** [np.reshape(a, newshape)] *)
Definition np_reshape (a : ndarray) (newshape : list nat) : outcome ndarray :=
  if length (data a) =? size_of newshape
  then Ok {| shape := newshape; data := data a |}
  else Raise (ValueError "cannot reshape array").

(** [k] consecutive pieces of [size] elements. *)
Fixpoint pieces (k size : nat) (l : list F) : list (list F) :=
  match k with
  | 0 => []
  | S k' => firstn size l :: pieces k' size (skipn size l)
  end.

(** [for row in a]: the sub-arrays along the first axis. *)
Definition np_iter (a : ndarray) : outcome (list ndarray) :=
  match shape a with
  | k :: rest =>
      Ok (map (fun d => {| shape := rest; data := d |})
              (pieces k (size_of rest) (data a)))
  | [] => Raise (TypeError "iteration over a 0-d array")
  end.

Fixpoint shape_eqb (s t : list nat) : bool :=
  match s, t with
  | [], [] => true
  | x :: s', y :: t' => (x =? y) && shape_eqb s' t'
  | _, _ => false
  end.

(** [np.array(t)] of a sequence of arrays: stacked along a new first axis. *)
Definition np_array_of (t : list ndarray) : outcome ndarray :=
  match t with
  | [] => Ok {| shape := [0]; data := [] |}
  | a :: rest =>
      if forallb (fun b => shape_eqb (shape a) (shape b)) rest
      then Ok {| shape := length t :: shape a; data := concat (map data t) |}
      else Raise (ValueError "inhomogeneous shape")
  end.

End Numpy.

Arguments mk_ndarray {F} _ _.
Arguments shape {F} _.
Arguments data {F} _.
Arguments wf_ndarray {F} _.
Arguments wf_ndarrayb {F} _.
Arguments ndim {F} _.
Arguments shape_at {F} _ _.
Arguments py_len {F} _.
Arguments np_array1 {F} _.
Arguments np_reshape {F} _ _.
Arguments pieces {F} _ _ _.
Arguments np_iter {F} _.
Arguments np_array_of {F} _.

(** ** multiprocessing.Pool

    [Pool(processes)] starts worker processes; [starmap(func, iterable)] cuts
    the iterable into batches, hands them to the workers and stores every
    finished batch at its own offset of the result list.  Workers receive
    pickled copies of their arguments, so [func] cannot change anything the
    caller holds: it is a function from the argument to what it returns or
    raises.  Which pending batch finishes next is decided by the operating
    system. *)

Record OS : Type := mk_OS {
  cpu_count : option nat;      (* [os.cpu_count()] *)
  completion : nat -> nat      (* at step [s], the pending batch that finishes *)
}.

Section PoolModel.

Variables A B : Type.

(** [divmod(len(iterable), len(self._pool) * 4)], rounded up; [0] for an empty
    iterable. *)
Definition chunksize_for (len workers : nat) : nat :=
  if len =? 0 then 0
  else
    let chunksize := len / (workers * 4) in
    let extra := len mod (workers * 4) in
    if extra =? 0 then chunksize else S chunksize.

(** [Pool._get_tasks]: slices of [size] items until the iterator is empty. *)
Fixpoint get_tasks (fuel size : nat) (it : list A) : list (list A) :=
  match fuel with
  | 0 => []
  | S fuel' =>
      match firstn size it with
      | [] => []
      | x => x :: get_tasks fuel' size (skipn size it)
      end
  end.

Fixpoint enumerate (start : nat) (l : list (list A)) : list (nat * list A) :=
  match l with
  | [] => []
  | x :: l' => (start, x) :: enumerate (S start) l'
  end.

(** [MapResult]: the slots of the result list, or the first exception. *)
Inductive MapResult : Type :=
| Collecting (value : list (option B))
| Failed (e : exn).

(** [MapResult._set(i, (success, result))] *)
Definition MapResult_set (chunksize i : nat) (r : outcome (list B))
    (mr : MapResult) : MapResult :=
  match mr, r with
  | Collecting v, Ok res =>
      Collecting (firstn (i * chunksize) v ++ map Some res
                    ++ skipn ((i + 1) * chunksize) v)
  | Collecting _, Raise e => Failed e
  | Failed e, _ => Failed e
  end.

Fixpoint remove_nth (k : nat) (l : list (nat * list A)) : list (nat * list A) :=
  match l, k with
  | [], _ => []
  | _ :: l', 0 => l'
  | x :: l', S k' => x :: remove_nth k' l'
  end.

(** The workers run the batches; [oracle] picks the one that reports next. *)
Fixpoint run_batches (chunksize : nat) (func : A -> outcome B)
    (oracle : nat -> nat) (fuel step : nat) (pending : list (nat * list A))
    (mr : MapResult) : MapResult :=
  match fuel with
  | 0 => mr
  | S fuel' =>
      let k := oracle step mod length pending in
      match nth_error pending k with
      | None => mr
      | Some (i, batch) =>
          run_batches chunksize func oracle fuel' (S step)
            (remove_nth k pending)
            (MapResult_set chunksize i (mapO func batch) mr)
      end
  end.

(** [MapResult.get()], once every batch has reported. *)
Definition MapResult_get (mr : MapResult) : outcome (list B) :=
  match mr with
  | Failed e => Raise e
  | Collecting v =>
      mapO (fun slot => match slot with
                        | Some b => Ok b
                        | None => Raise (ValueError "result slot never set")
                        end) v
  end.

Definition starmap_result (workers : nat) (oracle : nat -> nat)
    (func : A -> outcome B) (iterable : list A) : outcome (list B) :=
  let len := length iterable in
  let chunksize := chunksize_for len workers in
  let pending := enumerate 0 (get_tasks len chunksize iterable) in
  MapResult_get
    (run_batches chunksize func oracle (length pending) 0 pending
       (Collecting (repeat None len))).

End PoolModel.

Arguments get_tasks {A} _ _ _.
Arguments enumerate {A} _ _.
Arguments Collecting {B} _.
Arguments Failed {B} _.
Arguments MapResult_set {B} _ _ _ _.
Arguments remove_nth {A} _ _.
Arguments run_batches {A B} _ _ _ _ _ _ _.
Arguments MapResult_get {B} _.
Arguments starmap_result {A B} _ _ _ _.

(** ** The engine interface and the collection *)

Section Collection.

Variable F : Type.

(** [gp_emulator.GaussianProcess], the single-output engine.  Its fit is a
    function of the engine and its arguments (the random restarts it draws are
    not modelled); [loglikelihood] also updates the engine it is called on. *)
Class GaussianProcess (engine : Type) : Type := {
  GaussianProcess_init : ndarray F -> ndarray F -> outcome engine;
  GaussianProcess_learn_hyperparameters :
    engine -> Z -> bool -> option (ndarray F) -> outcome (F * ndarray F);
  GaussianProcess_loglikelihood : engine -> ndarray F -> outcome F * engine;
  GaussianProcess_predict :
    engine -> ndarray F -> outcome (ndarray F * ndarray F * ndarray F);
  (* the parameters the engine currently holds *)
  current_theta : engine -> option (ndarray F)
}.

Variable engine : Type.
Context `{GP : GaussianProcess engine}.

(** What a [starmap] call hands to the workers. *)
Inductive pool_call : Type :=
| Call_learn_hyperparameters (n_tries : Z) (verbose : bool) (x0 : option (ndarray F))
| Call_predict (testing : ndarray F).

(** What a call does outside the collection. *)
Inductive event : Type :=
| Ev_GaussianProcess (inputs single_target : ndarray F)
| Ev_Pool (processes : nat)
| Ev_starmap (call : pool_call) (ntasks : nat).

Definition emit (e : event) : M (list event) unit :=
  fun tr => (Ok tt, tr ++ [e]).

Record MultiOutputGP : Type := mk_MultiOutputGP {
  emulators : list engine;
  n_emulators : nat;
  n : nat;
  D : nat
}.

(** [GaussianProcess(inputs, single_target)] *)
Definition new_GaussianProcess (inputs single_target : ndarray F)
  : M (list event) engine :=
  emit (Ev_GaussianProcess inputs single_target) ;;
  liftO (GaussianProcess_init inputs single_target).

(** [if cond: raise e] *)
Definition raise_if {S} (cond : bool) (e : exn) : M S unit :=
  if cond then raise e else ret tt.

(** [MultiOutputGP.__init__]; [inputs] and [targets] are the arrays
    [np.array] makes of the arguments. *)
Definition MultiOutputGP_init (inputs targets : ndarray F)
  : M (list event) MultiOutputGP :=
  targets <- (if ndim targets =? 1
              then len <- liftO (py_len targets) ;;
                   liftO (np_reshape targets [1; len])
              else raise_if (negb (ndim targets =? 2))
                     (ValueError "targets must be either a 1D or 2D array") ;;
                   ret targets) ;;
  raise_if (negb (ndim inputs =? 2)) (ValueError "inputs must be 2D array") ;;
  inputs_0 <- liftO (shape_at inputs 0) ;;
  targets_1 <- liftO (shape_at targets 1) ;;
  raise_if (negb (inputs_0 =? targets_1))
    (ValueError "the first dimension of inputs must be the same length as the second dimension of targets (or first if targets is 1D))") ;;
  rows <- liftO (np_iter targets) ;;
  gps <- mapM (fun single_target => new_GaussianProcess inputs single_target) rows ;;
  targets_0 <- liftO (shape_at targets 0) ;;
  inputs_0 <- liftO (shape_at inputs 0) ;;
  inputs_1 <- liftO (shape_at inputs 1) ;;
  ret {| emulators := gps; n_emulators := targets_0; n := inputs_0; D := inputs_1 |}.

(** The object together with the trace of what its methods did outside it. *)
Record state : Type := mk_state {
  self : MultiOutputGP;
  events : list event
}.

Definition get_self : M state MultiOutputGP := fun st => (Ok (self st), st).

Definition outside {X} (c : M (list event) X) : M state X :=
  fun st =>
    let (r, tr) := c (events st) in
    (r, {| self := self st; events := tr |}).

Definition get_n_emulators : M state nat :=
  me <- get_self ;; ret (n_emulators me).

Definition get_n : M state nat :=
  me <- get_self ;; ret (n me).

Definition get_D : M state nat :=
  me <- get_self ;; ret (D me).

(** [Pool(processes)] *)
Definition Pool (os : OS) (processes : option Z) : M (list event) nat :=
  let processes :=
    match processes with
    | Some p => p
    | None => match cpu_count os with
              | Some (S c) => Z.of_nat (S c)
              | _ => 1%Z
              end
    end in
  raise_if (processes <? 1)%Z
    (ValueError "Number of processes must be at least 1") ;;
  emit (Ev_Pool (Z.to_nat processes)) ;;
  ret (Z.to_nat processes).

(** [p.starmap(func, iterable)] *)
Definition starmap {X Y} (os : OS) (p : nat) (call : pool_call)
    (func : X -> outcome Y) (iterable : list X) : M (list event) (list Y) :=
  emit (Ev_starmap call (length iterable)) ;;
  liftO (starmap_result p (completion os) func iterable).

(** [if not processes is None: processes = int(processes); assert ...] *)
Definition check_processes {S} (processes : option pynum) (msg : string)
  : M S (option Z) :=
  match processes with
  | Some p =>
      let processes := py_int p in
      assert (0 <? processes)%Z msg ;;
      ret (Some processes)
  | None => ret None
  end.

(** The loop [for emulator, (loglike, theta) in zip(self.emulators, vals)]:
    every engine re-evaluates its likelihood at the parameters returned for
    it; a raise leaves the later engines as they were. *)
Fixpoint reevaluate (gps : list engine) (vals : list (F * ndarray F))
  : outcome unit * list engine :=
  match gps, vals with
  | emulator :: gps', (_, theta) :: vals' =>
      match GaussianProcess_loglikelihood emulator theta with
      | (Ok _, emulator') =>
          let (r, gps'') := reevaluate gps' vals' in (r, emulator' :: gps'')
      | (Raise e, emulator') => (Raise e, emulator' :: gps')
      end
  | _, _ => (Ok tt, gps)
  end.

Definition reevaluate_all (vals : list (F * ndarray F)) : M state unit :=
  fun st =>
    let me := self st in
    let (r, gps) := reevaluate (emulators me) vals in
    (r, {| self := {| emulators := gps; n_emulators := n_emulators me;
                      n := n me; D := D me |};
           events := events st |}).

(** [MultiOutputGP.learn_hyperparameters] *)
Definition learn_hyperparameters (os : OS) (n_tries : pynum) (verbose : bool)
    (x0 : option (list F)) (processes : option pynum)
  : M state (list (F * ndarray F)) :=
  assert (0 <? py_int n_tries)%Z "n_tries must be a positive integer" ;;
  x0 <- match x0 with
        | Some x =>
            let x0 := np_array1 x in
            len <- liftO (py_len x0) ;;
            me <- get_self ;;
            assert (len =? D me + 2)
              "x0 must have length of number of input parameters D + 2" ;;
            ret (Some x0)
        | None => ret None
        end ;;
  processes <- check_processes processes "number of processes must be positive" ;;
  let n_tries := py_int n_tries in
  p <- outside (Pool os processes) ;;
  me <- get_self ;;
  likelihood_theta_vals <-
    outside (starmap os p (Call_learn_hyperparameters n_tries verbose x0)
               (fun gp => GaussianProcess_learn_hyperparameters gp n_tries verbose x0)
               (emulators me)) ;;
  reevaluate_all likelihood_theta_vals ;;
  ret likelihood_theta_vals.

(** [zip] of the unpacked [predict_vals]: nothing for an empty list, else the
    three columns. *)
Definition zip_star (vals : list (ndarray F * ndarray F * ndarray F))
  : list (list (ndarray F)) :=
  match vals with
  | [] => []
  | _ => [map (fun t => fst (fst t)) vals;
          map (fun t => snd (fst t)) vals;
          map (fun t => snd t) vals]
  end.

(** [a, b, c = l] *)
Definition unpack3 {S X} (l : list X) : M S (X * X * X) :=
  match l with
  | [a; b; c] => ret (a, b, c)
  | [] => raise (ValueError "not enough values to unpack (expected 3, got 0)")
  | _ => raise (ValueError "wrong number of values to unpack (expected 3)")
  end.

(** [MultiOutputGP.predict] *)
Definition predict (os : OS) (testing : ndarray F) (do_deriv do_unc : bool)
    (processes : option pynum)
  : M state (ndarray F * option (ndarray F) * option (ndarray F)) :=
  assert (ndim testing =? 2) "testing must be a 2D array" ;;
  testing_1 <- liftO (shape_at testing 1) ;;
  me <- get_self ;;
  assert (testing_1 =? D me)
    "second dimension of testing must be the same as the number of input parameters" ;;
  processes <- check_processes processes "number of processes must be a positive integer" ;;
  p <- outside (Pool os processes) ;;
  me <- get_self ;;
  predict_vals <-
    outside (starmap os p (Call_predict testing)
               (fun gp => GaussianProcess_predict gp testing) (emulators me)) ;;
  arrays <- liftO (mapO np_array_of (zip_star predict_vals)) ;;
  unpacked <- unpack3 arrays ;;
  let '(predict_unpacked, unc_unpacked, deriv_unpacked) := unpacked in
  let unc_unpacked := if negb do_unc then None else Some unc_unpacked in
  let deriv_unpacked := if negb do_deriv then None else Some deriv_unpacked in
  ret (predict_unpacked, unc_unpacked, deriv_unpacked).

(** [MultiOutputGP.__str__] *)
Definition MultiOutputGP_str : M state string :=
  emulators_count <- get_n_emulators ;;
  examples_count <- get_n ;;
  inputs_count <- get_D ;;
  ret ("Multi-Output Gaussian Process with:" ++ newline
       ++ py_str emulators_count ++ " emulators" ++ newline
       ++ py_str examples_count ++ " training examples" ++ newline
       ++ py_str inputs_count ++ " input variables")%string.

End Collection.

Arguments GaussianProcess_init {F engine GaussianProcess} _ _.
Arguments GaussianProcess_learn_hyperparameters {F engine GaussianProcess} _ _ _ _.
Arguments GaussianProcess_loglikelihood {F engine GaussianProcess} _ _.
Arguments GaussianProcess_predict {F engine GaussianProcess} _ _.
Arguments current_theta {F engine GaussianProcess} _.
Arguments Call_learn_hyperparameters {F} _ _ _.
Arguments Call_predict {F} _.
Arguments Ev_GaussianProcess {F} _ _.
Arguments Ev_Pool {F} _.
Arguments Ev_starmap {F} _ _.
Arguments emit {F} _ _.
Arguments mk_MultiOutputGP {engine} _ _ _ _.
Arguments emulators {engine} _.
Arguments n_emulators {engine} _.
Arguments n {engine} _.
Arguments D {engine} _.
Arguments new_GaussianProcess {F engine GP} _ _ _.
Arguments MultiOutputGP_init {F engine GP} _ _ _.
Arguments mk_state {F engine} _ _.
Arguments self {F engine} _.
Arguments events {F engine} _.
Arguments get_self {F engine} _.
Arguments outside {F engine X} _ _.
Arguments get_n_emulators {F engine} _.
Arguments get_n {F engine} _.
Arguments get_D {F engine} _.
Arguments Pool {F} _ _ _.
Arguments starmap {F X Y} _ _ _ _ _ _.
Arguments reevaluate {F engine GP} _ _.
Arguments reevaluate_all {F engine GP} _ _.
Arguments learn_hyperparameters {F engine GP} _ _ _ _ _ _.
Arguments zip_star {F} _.
Arguments predict {F engine GP} _ _ _ _ _ _.
Arguments MultiOutputGP_str {F engine} _.

(** ** The vocabulary of the statements *)

(** A decimal digit. *)
Definition is_digit (c : ascii) : bool :=
  let k := nat_of_ascii c in (48 <=? k) && (k <=? 57).

Fixpoint all_digits (s : string) : bool :=
  match s with
  | EmptyString => true
  | String c s' => is_digit c && all_digits s'
  end.

(** [targets[i]] of a two-dimensional [targets] with rows of length [k]. *)
Definition target_row {F : Type} (targets : ndarray F) (k i : nat) : ndarray F :=
  {| shape := [k]; data := firstn k (skipn (i * k) (data targets)) |}.

(** A number that is zero or negative. *)
Definition nonpositive (x : pynum) : Prop :=
  match x with
  | PyInt z => (z <= 0)%Z
  | PyFloat q => Qle q (0 # 1)
  end.

(** The [processes] argument as its docstring wants it: [None] or a number
    whose integer value is positive. *)
Definition valid_processes (processes : option pynum) : Prop :=
  match processes with
  | Some p => (0 < py_int p)%Z
  | None => True
  end.

(** The number of workers [Pool] starts. *)
Definition pool_size (os : OS) (processes : option pynum) : nat :=
  match processes with
  | Some p => Z.to_nat (py_int p)
  | None => match cpu_count os with
            | Some (S c) => S c
            | _ => 1
            end
  end.

Section Lifetime.

Context {F engine : Type} `{GP : GaussianProcess F engine}.

(** The states a collection goes through: any sequence of calls of its two
    methods, with any arguments and whatever they return or raise. *)
Inductive lifetime (st0 : state F engine) : state F engine -> Prop :=
| life_start : lifetime st0 st0
| life_learn_hyperparameters os n_tries verbose x0 processes st :
    lifetime st0 st ->
    lifetime st0 (snd (learn_hyperparameters os n_tries verbose x0 processes st))
| life_predict os testing do_deriv do_unc processes st :
    lifetime st0 st ->
    lifetime st0 (snd (predict os testing do_deriv do_unc processes st)).

(** A collection that [MultiOutputGP(inputs, targets)] returned, at some
    point of its life. *)
Definition constructed (st : state F engine) : Prop :=
  exists inputs targets tr me tr',
    MultiOutputGP_init inputs targets tr = (Ok me, tr')
    /\ lifetime {| self := me; events := tr' |} st.

(** The [x0] argument as the docstring wants it: [None] or [D + 2] values. *)
Definition valid_x0 (me : MultiOutputGP engine) (x0 : option (list F)) : Prop :=
  match x0 with
  | Some x => length x = D me + 2
  | None => True
  end.

(** Two collections with the same three scalars and as many engines. *)
Definition same_scalars (a b : MultiOutputGP engine) : Prop :=
  n_emulators a = n_emulators b /\ n a = n b /\ D a = D b
  /\ length (emulators a) = length (emulators b).

(** A computation that moves the object only along the relation [R]. *)
Definition keeps (R : MultiOutputGP engine -> MultiOutputGP engine -> Prop)
    {X : Type} (c : M (state F engine) X) : Prop :=
  forall st, R (self st) (self (snd (c st))).

(** What the engine promises for [predict] on [q] points in [d] dimensions:
    a mean and a variance per point and a derivative per point and input. *)
Definition predict_contract (testing : ndarray F) (q d : nat) (gp : engine)
  : Prop :=
  exists mean unc deriv,
    GaussianProcess_predict gp testing = Ok (mean, unc, deriv)
    /\ shape mean = [q] /\ shape unc = [q] /\ shape deriv = [q; d].

(** What the engine promises for [loglikelihood]: when it returns, the engine
    holds the parameters it was evaluated at. *)
Definition loglikelihood_contract : Prop :=
  forall (gp gp' : engine) (theta : ndarray F) (score : F),
    GaussianProcess_loglikelihood gp theta = (Ok score, gp') ->
    current_theta gp' = Some theta.

End Lifetime.

(** ** A small engine over the integers

    An instance of the engine interface on which the statements below are run
    on concrete data: it keeps its training data and the parameters it was
    last evaluated at, scores with the sum of its targets, and predicts that
    sum everywhere. *)

Module Demo.

Record engine : Type := mk_engine {
  e_inputs : ndarray Z;
  e_targets : ndarray Z;
  e_theta : option (ndarray Z)
}.

Definition total (a : ndarray Z) : Z := fold_right Z.add 0%Z (data a).

Definition dim (a : ndarray Z) (i : nat) : nat := nth i (shape a) 0.

Definition init (inputs single_target : ndarray Z) : outcome engine :=
  Ok {| e_inputs := inputs; e_targets := single_target; e_theta := None |}.

Definition fit (gp : engine) (n_tries : Z) (verbose : bool)
    (x0 : option (ndarray Z)) : outcome (Z * ndarray Z) :=
  let d := dim (e_inputs gp) 1 + 2 in
  Ok (total (e_targets gp),
      match x0 with
      | Some x => x
      | None => {| shape := [d]; data := repeat n_tries d |}
      end).

Definition loglikelihood (gp : engine) (theta : ndarray Z)
  : outcome Z * engine :=
  (Ok (total (e_targets gp)),
   {| e_inputs := e_inputs gp; e_targets := e_targets gp;
      e_theta := Some theta |}).

Definition predict_one (gp : engine) (testing : ndarray Z)
  : outcome (ndarray Z * ndarray Z * ndarray Z) :=
  let q := dim testing 0 in
  let d := dim testing 1 in
  Ok ({| shape := [q]; data := repeat (total (e_targets gp)) q |},
      {| shape := [q]; data := repeat 0%Z q |},
      {| shape := [q; d]; data := repeat 0%Z (q * d) |}).

#[export] Instance GP : GaussianProcess Z engine := {|
  GaussianProcess_init := init;
  GaussianProcess_learn_hyperparameters := fit;
  GaussianProcess_loglikelihood := loglikelihood;
  GaussianProcess_predict := predict_one;
  current_theta := e_theta
|}.

(** The arrays of the class docstring. *)
Definition x : ndarray Z := {| shape := [2; 3]; data := [1; 2; 3; 4; 5; 6]%Z |}.
Definition y : ndarray Z := {| shape := [2; 2]; data := [4; 6; 5; 7]%Z |}.
Definition x_predict : ndarray Z :=
  {| shape := [2; 3]; data := [2; 3; 4; 7; 8; 9]%Z |}.

Definition os1 : OS := {| cpu_count := Some 1; completion := fun _ => 0 |}.
Definition os4 : OS := {| cpu_count := Some 4; completion := fun s => 3 * s + 1 |}.

Definition row0 : ndarray Z := {| shape := [2]; data := [4; 6]%Z |}.
Definition row1 : ndarray Z := {| shape := [2]; data := [5; 7]%Z |}.

(** [MultiOutputGP(x, y)] and the state right after the call. *)
Definition mogp : MultiOutputGP engine :=
  {| emulators :=
       [ {| e_inputs := x; e_targets := row0; e_theta := None |};
         {| e_inputs := x; e_targets := row1; e_theta := None |} ];
     n_emulators := 2; n := 2; D := 3 |}.

Definition st0 : state Z engine :=
  {| self := mogp;
     events := [Ev_GaussianProcess x row0; Ev_GaussianProcess x row1] |}.

(** What the two engines return for a fit with 15 restarts. *)
Definition theta15 : ndarray Z := {| shape := [5]; data := repeat 15%Z 5 |}.
Definition fit_vals : list (Z * ndarray Z) := [(10%Z, theta15); (12%Z, theta15)].

(** The state after [mogp.learn_hyperparameters()] on a four-core machine. *)
Definition st1 : state Z engine :=
  snd (learn_hyperparameters os4 (PyInt 15) false None None st0).

(** The collection built from no target row at all. *)
Definition mogp_none : MultiOutputGP engine :=
  {| emulators := []; n_emulators := 0; n := 2; D := 3 |}.

(** Arrays without elements. *)
Definition no_targets : ndarray Z := {| shape := [0; 2]; data := [] |}.
Definition empty : ndarray Z := {| shape := [0; 0]; data := [] |}.

(** One-dimensional data. *)
Definition v3 : ndarray Z := {| shape := [3]; data := [1; 2; 3]%Z |}.

End Demo.

(** ** An engine that can fail

    The engine of [Demo], except that its constructor refuses a target vector
    with a negative entry, its fit and its prediction fail on targets that
    sum to zero, and its likelihood fails, after storing the parameters, on
    targets that sum to more than a hundred. *)

Module Fragile.

Definition init (inputs single_target : ndarray Z) : outcome Demo.engine :=
  if existsb (fun t => (t <? 0)%Z) (data single_target)
  then Raise (EngineError "negative target")
  else Demo.init inputs single_target.

Definition fit (gp : Demo.engine) (n_tries : Z) (verbose : bool)
    (x0 : option (ndarray Z)) : outcome (Z * ndarray Z) :=
  if (Demo.total (Demo.e_targets gp) =? 0)%Z
  then Raise (EngineError "singular matrix")
  else Demo.fit gp n_tries verbose x0.

Definition loglikelihood (gp : Demo.engine) (theta : ndarray Z)
  : outcome Z * Demo.engine :=
  if (100 <? Demo.total (Demo.e_targets gp))%Z
  then (Raise (EngineError "overflow"), snd (Demo.loglikelihood gp theta))
  else Demo.loglikelihood gp theta.

Definition predict_one (gp : Demo.engine) (testing : ndarray Z)
  : outcome (ndarray Z * ndarray Z * ndarray Z) :=
  if (Demo.total (Demo.e_targets gp) =? 0)%Z
  then Raise (EngineError "singular matrix")
  else Demo.predict_one gp testing.

#[export] Instance GP : GaussianProcess Z Demo.engine := {|
  GaussianProcess_init := init;
  GaussianProcess_learn_hyperparameters := fit;
  GaussianProcess_loglikelihood := loglikelihood;
  GaussianProcess_predict := predict_one;
  current_theta := Demo.e_theta
|}.

Definition gp_of (row : list Z) : Demo.engine :=
  {| Demo.e_inputs := Demo.x;
     Demo.e_targets := {| shape := [2]; data := row |};
     Demo.e_theta := None |}.

(** Three engines: the second cannot be fitted. *)
Definition st_singular : state Z Demo.engine :=
  {| self := {| emulators := [gp_of [4; 6]; gp_of [3; -3]; gp_of [5; 7]]%Z;
                n_emulators := 3; n := 2; D := 3 |};
     events := [] |}.

(** Three engines: the likelihood of the second cannot be evaluated. *)
Definition st_overflow : state Z Demo.engine :=
  {| self := {| emulators := [gp_of [4; 6]; gp_of [60; 70]; gp_of [5; 7]]%Z;
                n_emulators := 3; n := 2; D := 3 |};
     events := [] |}.

(** Targets whose second row has a negative entry. *)
Definition y_negative : ndarray Z :=
  {| shape := [3; 2]; data := [4; 6; 5; -7; 8; 9]%Z |}.

End Fragile.

(** * Properties *)

(** ** Lists and [mapO] *)

Section MapOFacts.

Context {A B : Type}.
Variable f : A -> outcome B.

Lemma mapO_length (l : list A) (r : list B) :
  mapO f l = Ok r -> length r = length l.
Proof.
  revert r; induction l as [|x l IH]; intros r; simpl.
  - intros [= <-]; reflexivity.
  - destruct (f x); [|discriminate].
    destruct (mapO f l); [|discriminate].
    intros [= <-]; simpl; f_equal; auto.
Qed.

Lemma mapO_firstn (k : nat) (l : list A) (r : list B) :
  mapO f l = Ok r -> mapO f (firstn k l) = Ok (firstn k r).
Proof.
  revert l r; induction k as [|k IH]; intros l r; [reflexivity|].
  destruct l as [|x l]; simpl.
  - intros [= <-]; reflexivity.
  - destruct (f x); [|discriminate].
    destruct (mapO f l) eqn:E; [|discriminate].
    intros [= <-]; simpl. rewrite (IH _ _ E); reflexivity.
Qed.

Lemma mapO_skipn (k : nat) (l : list A) (r : list B) :
  mapO f l = Ok r -> mapO f (skipn k l) = Ok (skipn k r).
Proof.
  revert l r; induction k as [|k IH]; intros l r; [trivial|].
  destruct l as [|x l]; simpl.
  - intros [= <-]; reflexivity.
  - destruct (f x); [|discriminate].
    destruct (mapO f l) eqn:E; [|discriminate].
    intros [= <-]; simpl. apply IH, E.
Qed.

(** [mapO] raises exactly when some element does. *)
Lemma mapO_raise_In (l : list A) (e : exn) :
  mapO f l = Raise e -> exists x e', In x l /\ f x = Raise e'.
Proof.
  induction l as [|x l IH]; simpl; [discriminate|].
  destruct (f x) eqn:Ex.
  - destruct (mapO f l); [discriminate|].
    intros [= <-]. destruct IH as (y & e' & Hy & Hf); [reflexivity|].
    exists y, e'; auto.
  - intros _; exists x, e0; auto.
Qed.

Lemma In_mapO_raise (l : list A) (x : A) (e : exn) :
  In x l -> f x = Raise e -> exists e', mapO f l = Raise e'.
Proof.
  induction l as [|y l IH]; simpl; [contradiction|].
  intros [-> | Hin] Hf.
  - rewrite Hf; eauto.
  - destruct (f y); eauto.
    destruct (IH Hin Hf) as [e' ->]; eauto.
Qed.

Lemma mapO_Forall2 (l : list A) (r : list B) :
  mapO f l = Ok r <-> Forall2 (fun x y => f x = Ok y) l r.
Proof.
  revert r; induction l as [|x l IH]; intros r; simpl.
  - split.
    + intros [= <-]; constructor.
    + inversion 1; reflexivity.
  - split.
    + destruct (f x) eqn:Ex; [|discriminate].
      destruct (mapO f l) eqn:El; [|discriminate].
      intros [= <-]. constructor; [assumption|]. apply IH; reflexivity.
    + inversion 1 as [|? y ? r' Hx Hl]; subst.
      rewrite Hx. apply IH in Hl. rewrite Hl; reflexivity.
Qed.

End MapOFacts.

Lemma splice_nth {X : Type} (v T : list X) (a c j : nat) :
  length v = length T -> a <= length T ->
  nth_error (firstn a v ++ firstn c (skipn a T) ++ skipn (a + c) v) j
  = if (a <=? j) && (j <? a + c) then nth_error T j else nth_error v j.
Proof.
  intros Hlen Ha.
  assert (La : length (firstn a v) = a) by (rewrite length_firstn; lia).
  destruct (Nat.leb_spec a j) as [Haj|Haj]; simpl.
  - rewrite nth_error_app2 by lia. rewrite La.
    assert (Lc : length (firstn c (skipn a T)) = Nat.min c (length T - a))
      by (rewrite length_firstn, length_skipn; reflexivity).
    destruct (Nat.lt_ge_cases (j - a) (Nat.min c (length T - a))) as [Hin|Hout].
    + rewrite nth_error_app1 by lia.
      rewrite nth_error_firstn, nth_error_skipn.
      destruct (Nat.ltb_spec (j - a) c); [|lia].
      destruct (Nat.ltb_spec j (a + c)); [|lia].
      f_equal; lia.
    + rewrite nth_error_app2 by lia. rewrite Lc, nth_error_skipn.
      destruct (Nat.ltb_spec j (a + c)).
      * assert (length T <= j) by lia.
        transitivity (@None X); [|symmetry]; apply nth_error_None; lia.
      * destruct (Nat.le_gt_cases c (length T - a)); [f_equal; lia|].
        transitivity (@None X); [|symmetry]; apply nth_error_None; lia.
  - rewrite nth_error_app1 by lia.
    rewrite nth_error_firstn.
    destruct (Nat.ltb_spec j a); [reflexivity|lia].
Qed.

(** ** The worker pool returns the results in submission order *)

Section PoolFacts.

Context {A B : Type}.
Variable f : A -> outcome B.

Lemma chunksize_for_pos (len workers : nat) :
  0 < len -> 0 < chunksize_for len workers.
Proof.
  intros Hlen. unfold chunksize_for.
  destruct (Nat.eqb_spec len 0); [lia|].
  destruct (Nat.eqb_spec (len mod (workers * 4)) 0) as [E|E]; [|lia].
  pose proof (Nat.div_mod_eq len (workers * 4)) as H.
  destruct (len / (workers * 4)); [|lia].
  rewrite E in H. lia.
Qed.

Lemma get_tasks_nth (fuel size : nat) (it : list A) (i : nat) :
  0 < size -> length it <= fuel ->
  nth_error (get_tasks fuel size it) i
  = if i * size <? length it
    then Some (firstn size (skipn (i * size) it)) else None.
Proof.
  intros Hsize. revert it i.
  induction fuel as [|fuel IH]; intros it i Hfuel.
  - destruct it; [|simpl in Hfuel; lia].
    cbn [get_tasks length].
    destruct (Nat.ltb_spec (i * size) 0); [lia|]. destruct i; reflexivity.
  - cbn [get_tasks]. destruct it as [|x it].
    + rewrite firstn_nil. cbn [length].
      destruct (Nat.ltb_spec (i * size) 0); [lia|]. destruct i; reflexivity.
    + destruct size as [|size]; [lia|].
      change (firstn (S size) (x :: it)) with (x :: firstn size it).
      destruct i as [|i].
      * reflexivity.
      * cbn [nth_error]. rewrite IH.
        2:{ rewrite length_skipn. simpl in *. lia. }
        rewrite length_skipn.
        replace (S i * S size) with (i * S size + S size) by lia.
        rewrite <- skipn_skipn.
        destruct (Nat.ltb_spec (i * S size) (length (x :: it) - S size));
          destruct (Nat.ltb_spec (i * S size + S size) (length (x :: it)));
          try lia; reflexivity.
Qed.

Lemma enumerate_In (l : list (list A)) (s i : nat) (b : list A) :
  In (i, b) (enumerate s l) <-> s <= i /\ nth_error l (i - s) = Some b.
Proof.
  revert s; induction l as [|x l IH]; intros s; simpl.
  - split; [contradiction|]. intros [_ H]. destruct (i - s); discriminate.
  - rewrite IH. split.
    + intros [[= <- <-] | [Hle H]].
      * rewrite Nat.sub_diag; auto.
      * split; [lia|]. replace (i - s) with (S (i - S s)) by lia. exact H.
    + intros [Hle H]. destruct (Nat.eq_dec s i) as [<-|Hne].
      * rewrite Nat.sub_diag in H. injection H as <-. auto.
      * right. split; [lia|].
        replace (i - s) with (S (i - S s)) in H by lia. exact H.
Qed.

Lemma length_enumerate (l : list (list A)) (s : nat) :
  length (enumerate s l) = length l.
Proof. revert s; induction l; intros; simpl; auto. Qed.

Lemma remove_nth_In (k : nat) (l : list (nat * list A)) (x : nat * list A) :
  In x (remove_nth k l) -> In x l.
Proof.
  revert k; induction l as [|y l IH]; intros [|k]; simpl; auto.
  intros [->|H]; eauto.
Qed.

Lemma remove_nth_keeps (k : nat) (l : list (nat * list A)) (x y : nat * list A) :
  nth_error l k = Some y -> In x l -> x = y \/ In x (remove_nth k l).
Proof.
  revert k; induction l as [|z l IH]; intros [|k]; simpl; try discriminate.
  - intros [= ->] [->|H]; auto.
  - intros Hk [->|H]; auto.
    destruct (IH _ Hk H); auto.
Qed.

Lemma length_remove_nth (k : nat) (l : list (nat * list A)) :
  k < length l -> S (length (remove_nth k l)) = length l.
Proof.
  revert k; induction l as [|z l IH]; intros [|k]; simpl; try lia.
  intros H. rewrite IH; lia.
Qed.

Lemma oracle_pick (oracle : nat -> nat) (step : nat) (pending : list (nat * list A)) :
  pending <> [] ->
  exists x, nth_error pending (oracle step mod length pending) = Some x
            /\ oracle step mod length pending < length pending.
Proof.
  intros Hne.
  assert (length pending <> 0) by (destruct pending; simpl; congruence).
  pose proof (Nat.mod_upper_bound (oracle step) (length pending) H) as Hlt.
  destruct (nth_error pending (oracle step mod length pending)) eqn:E.
  - eauto.
  - apply nth_error_None in E. lia.
Qed.

Lemma MapResult_get_filled (r : list B) :
  MapResult_get (Collecting (map Some r)) = Ok r.
Proof.
  simpl. induction r as [|y r IH]; simpl; [reflexivity|].
  rewrite IH; reflexivity.
Qed.

Lemma run_batches_Failed (chunksize : nat) (oracle : nat -> nat)
    (fuel step : nat) (pending : list (nat * list A)) (e : exn) :
  run_batches chunksize f oracle fuel step pending (Failed e) = Failed e.
Proof.
  revert step pending; induction fuel as [|fuel IH]; intros; simpl; auto.
  destruct (nth_error pending _) as [[i b]|]; auto.
Qed.

(** Once a batch in which some call raises is pending, the result is a failure. *)
Lemma run_batches_raises (chunksize : nat) (oracle : nat -> nat)
    (fuel step : nat) (pending : list (nat * list A)) (mr : MapResult B) :
  length pending <= fuel ->
  (exists i b e, In (i, b) pending /\ mapO f b = Raise e) ->
  exists e, run_batches chunksize f oracle fuel step pending mr = Failed e.
Proof.
  revert step pending mr; induction fuel as [|fuel IH];
    intros step pending mr Hfuel (i & b & e & Hin & Hraise).
  - destruct pending; [contradiction|simpl in Hfuel; lia].
  - simpl.
    destruct (oracle_pick oracle step pending) as ([i' b'] & Hk & Hlt);
      [destruct pending; [contradiction|discriminate]|].
    rewrite Hk.
    destruct mr as [v|e0]; [|simpl; rewrite run_batches_Failed; eauto].
    destruct (mapO f b') as [res|e'] eqn:Eb'; simpl.
    + apply IH.
      * pose proof (length_remove_nth _ _ Hlt). lia.
      * destruct (remove_nth_keeps _ _ _ _ Hk Hin) as [[= -> ->]|Hrem].
        -- congruence.
        -- eauto.
    + rewrite run_batches_Failed; eauto.
Qed.

(** While every call returns, the slots outside the pending batches hold the
    results, and in the end all of them do. *)
Lemma run_batches_returns (chunksize : nat) (oracle : nat -> nat)
    (l : list A) (r : list B) (fuel step : nat)
    (pending : list (nat * list A)) (v : list (option B)) :
  mapO f l = Ok r ->
  length pending <= fuel ->
  (forall i b, In (i, b) pending ->
     i * chunksize < length l /\ b = firstn chunksize (skipn (i * chunksize) l)) ->
  length v = length l ->
  (forall j, nth_error v j = nth_error (map Some r) j
             \/ exists i b, In (i, b) pending
                  /\ i * chunksize <= j < i * chunksize + chunksize) ->
  run_batches chunksize f oracle fuel step pending (Collecting v)
  = Collecting (map Some r).
Proof.
  intros Hr. pose proof (mapO_length _ _ _ Hr) as Hlr.
  revert step pending v; induction fuel as [|fuel IH];
    intros step pending v Hfuel Hgood Hlen Hcov.
  - destruct pending; [|simpl in Hfuel; lia]. simpl. f_equal.
    apply nth_error_ext; intros j.
    destruct (Hcov j) as [H|(i & b & [] & _)]; exact H.
  - simpl. destruct pending as [|p0 pending0] eqn:Ep.
    + simpl. destruct (oracle step); simpl; f_equal;
        apply nth_error_ext; intros j;
        destruct (Hcov j) as [H|(i & b & [] & _)]; exact H.
    + rewrite <- Ep in *.
      destruct (oracle_pick oracle step pending) as ([i b] & Hk & Hlt);
        [rewrite Ep; discriminate|].
      rewrite Hk.
      assert (Hin : In (i, b) pending) by (eapply nth_error_In; eauto).
      destruct (Hgood _ _ Hin) as [Hi ->].
      rewrite (mapO_firstn f chunksize _ _ (mapO_skipn f (i * chunksize) _ _ Hr)).
      simpl.
      rewrite <- firstn_map, <- skipn_map.
      replace ((i + 1) * chunksize) with (i * chunksize + chunksize) by lia.
      apply IH.
      * pose proof (length_remove_nth _ _ Hlt). lia.
      * intros i' b' H'. apply Hgood. eapply remove_nth_In; eauto.
      * rewrite !length_app, length_firstn, length_firstn, !length_skipn,
          length_map. lia.
      * intros j. rewrite splice_nth by (rewrite ?length_map; lia).
        destruct (Nat.leb_spec (i * chunksize) j);
          destruct (Nat.ltb_spec j (i * chunksize + chunksize)); simpl; auto.
        all: destruct (Hcov j) as [H'|(i' & b' & Hin' & Hj)]; auto.
        all: destruct (remove_nth_keeps _ _ _ _ Hk Hin') as [[= -> ->]|Hrem];
          [lia|right; eauto].
Qed.

(** The batches a [starmap] call starts from. *)
Lemma pending_good (l : list A) (chunksize i : nat) (b : list A) :
  0 < chunksize ->
  In (i, b) (enumerate 0 (get_tasks (length l) chunksize l)) <->
  i * chunksize < length l /\ b = firstn chunksize (skipn (i * chunksize) l).
Proof.
  intros Hc. rewrite enumerate_In, Nat.sub_0_r, get_tasks_nth by lia.
  destruct (Nat.ltb_spec (i * chunksize) (length l)); split.
  - intros [_ [= <-]]; auto.
  - intros [_ ->]; split; [lia|reflexivity].
  - intros [_ [=]].
  - intros [H' _]; lia.
Qed.

Lemma starmap_result_returns (workers : nat) (oracle : nat -> nat)
    (l : list A) (r : list B) :
  mapO f l = Ok r -> starmap_result workers oracle f l = Ok r.
Proof.
  intros Hr. unfold starmap_result.
  destruct l as [|x l].
  - injection Hr as <-. reflexivity.
  - set (l0 := x :: l) in *.
    assert (Hc : 0 < chunksize_for (length l0) workers)
      by (apply chunksize_for_pos; simpl; lia).
    set (c := chunksize_for (length l0) workers) in *.
    rewrite run_batches_returns with (l := l0) (r := r); auto.
    + apply MapResult_get_filled.
    + intros i b. apply pending_good, Hc.
    + apply repeat_length.
    + intros j. destruct (Nat.lt_ge_cases j (length l0)) as [Hj|Hj].
      * right. exists (j / c), (firstn c (skipn (j / c * c) l0)).
        pose proof (Nat.div_mod_eq j c).
        pose proof (Nat.mod_upper_bound j c ltac:(lia)).
        split; [apply pending_good; auto; split; [nia|reflexivity]|nia].
      * left. transitivity (@None (option B)); [|symmetry];
          apply nth_error_None;
          rewrite ?repeat_length, ?length_map, ?(mapO_length _ _ _ Hr); lia.
Qed.

Lemma starmap_result_raises (workers : nat) (oracle : nat -> nat)
    (l : list A) (e : exn) :
  mapO f l = Raise e -> exists e', starmap_result workers oracle f l = Raise e'.
Proof.
  intros Hr. unfold starmap_result.
  destruct (mapO_raise_In _ _ _ Hr) as (x & e' & Hx & Hfx).
  destruct (In_nth_error _ _ Hx) as [j Hj].
  assert (Hjl : j < length l) by (apply nth_error_Some; congruence).
  assert (Hc : 0 < chunksize_for (length l) workers)
    by (apply chunksize_for_pos; lia).
  set (c := chunksize_for (length l) workers) in *.
  pose proof (Nat.div_mod_eq j c).
  pose proof (Nat.mod_upper_bound j c ltac:(lia)).
  destruct (run_batches_raises c oracle
              (length (enumerate 0 (get_tasks (length l) c l))) 0
              (enumerate 0 (get_tasks (length l) c l))
              (Collecting (repeat None (length l)))) as [e'' ->]; [lia| |].
  - assert (Hb : In x (firstn c (skipn (j / c * c) l))).
    { apply nth_error_In with (n := j mod c).
      rewrite nth_error_firstn, nth_error_skipn.
      destruct (Nat.ltb_spec (j mod c) c); [|lia].
      rewrite <- Hj. f_equal. lia. }
    destruct (In_mapO_raise f _ _ _ Hb Hfx) as [e'' He''].
    exists (j / c), (firstn c (skipn (j / c * c) l)), e''.
    split; [apply pending_good; auto; split; [nia|reflexivity]|assumption].
  - simpl; eauto.
Qed.

(** [starmap] returns what a sequential map over the iterable returns,
    whatever the number of workers and the order in which batches finish. *)
Lemma starmap_result_iff (workers : nat) (oracle : nat -> nat)
    (l : list A) (r : list B) :
  starmap_result workers oracle f l = Ok r <-> mapO f l = Ok r.
Proof.
  split.
  - intros H. destruct (mapO f l) as [r'|e] eqn:E.
    + rewrite (starmap_result_returns workers oracle _ _ E) in H.
      congruence.
    + destruct (starmap_result_raises workers oracle _ _ E) as [e' He'].
      congruence.
  - apply starmap_result_returns.
Qed.

End PoolFacts.

(** ** Construction *)

Ltac run_py :=
  unfold raise_if, assert, liftO, get_self, outside, emit, bind, ret, raise in *.

Section InitFacts.

Context {F engine : Type} `{GP : GaussianProcess F engine}.

Lemma pieces_length (k size : nat) (l : list F) :
  length (pieces k size l) = k.
Proof. revert l; induction k; intros; simpl; auto. Qed.

Lemma pieces_sizes (k size : nat) (l : list F) :
  length l = k * size -> Forall (fun p => length p = size) (pieces k size l).
Proof.
  revert l; induction k as [|k IH]; intros l Hl; simpl; constructor.
  - rewrite length_firstn. lia.
  - apply IH. rewrite length_skipn. lia.
Qed.

Lemma pieces_concat (k size : nat) (l : list F) :
  length l = k * size -> concat (pieces k size l) = l.
Proof.
  revert l; induction k as [|k IH]; intros l Hl; simpl.
  - destruct l; [reflexivity|discriminate].
  - rewrite IH by (rewrite length_skipn; lia). apply firstn_skipn.
Qed.

(** The engines are built row by row, each from the shared inputs. *)
Lemma mapM_new_GaussianProcess (inputs : ndarray F) (rows : list (ndarray F))
    (tr tr' : list (event F)) (gps : list engine) :
  mapM (fun single_target => new_GaussianProcess inputs single_target) rows tr
  = (Ok gps, tr') ->
  Forall2 (fun row gp => GaussianProcess_init inputs row = Ok gp) rows gps
  /\ tr' = tr ++ map (Ev_GaussianProcess inputs) rows.
Proof.
  revert tr tr' gps; induction rows as [|row rows IH]; intros tr tr' gps; simpl.
  - run_py. intros [= <- <-]. rewrite app_nil_r. auto.
  - unfold new_GaussianProcess. run_py.
    destruct (GaussianProcess_init inputs row) as [gp|e] eqn:Egp; [|discriminate].
    destruct (mapM _ rows (tr ++ [Ev_GaussianProcess inputs row]))
      as [[gps'|e] tr''] eqn:Erows; [|discriminate].
    intros [= <- <-]. destruct (IH _ _ _ Erows) as [H1 ->].
    split; [constructor; assumption|]. rewrite <- app_assoc. reflexivity.
Qed.

Lemma mapM_new_GaussianProcess_returns (inputs : ndarray F)
    (rows : list (ndarray F)) (tr : list (event F)) (gps : list engine) :
  Forall2 (fun row gp => GaussianProcess_init inputs row = Ok gp) rows gps ->
  mapM (fun single_target => new_GaussianProcess inputs single_target) rows tr
  = (Ok gps, tr ++ map (Ev_GaussianProcess inputs) rows).
Proof.
  intros H; revert tr; induction H as [|row gp rows gps Hgp _ IH]; intros tr; simpl.
  - run_py. rewrite app_nil_r. reflexivity.
  - unfold new_GaussianProcess. run_py. rewrite Hgp, IH, <- app_assoc.
    reflexivity.
Qed.

(** The constructor on a two-dimensional [targets] whose rows are as long as
    [inputs] has rows: it builds one engine per row, or raises what the first
    failing engine constructor raises. *)
Lemma MultiOutputGP_init_2D (inputs targets : ndarray F) (tr : list (event F))
    (n0 d m : nat) :
  shape inputs = [n0; d] -> shape targets = [m; n0] ->
  MultiOutputGP_init inputs targets tr
  = match mapM (fun single_target => new_GaussianProcess inputs single_target)
            (map (fun r => {| shape := [n0]; data := r |})
                 (pieces m (n0 * 1) (data targets))) tr with
    | (Ok gps, tr') =>
        (Ok {| emulators := gps; n_emulators := m; n := n0; D := d |}, tr')
    | (Raise e, tr') => (Raise e, tr')
    end.
Proof.
  intros Hi Ht. unfold MultiOutputGP_init, ndim, shape_at, np_iter.
  rewrite Hi, Ht. run_py. simpl. rewrite Ht. simpl. rewrite Nat.eqb_refl. simpl.
  destruct (mapM _ _ tr) as [[gps|e] tr']; reflexivity.
Qed.

(** A one-dimensional [targets] is first made a table of one row. *)
Lemma MultiOutputGP_init_1D (inputs : ndarray F) (k : nat) (t : list F)
    (tr : list (event F)) :
  length t = k ->
  MultiOutputGP_init inputs {| shape := [k]; data := t |} tr
  = MultiOutputGP_init inputs {| shape := [1; k]; data := t |} tr.
Proof.
  intros Hk. unfold MultiOutputGP_init, ndim, py_len, np_reshape. run_py. simpl.
  replace (length t =? k * 1 + 0) with true
    by (symmetry; apply Nat.eqb_eq; lia).
  reflexivity.
Qed.

Lemma MultiOutputGP_init_targets_rank (inputs targets : ndarray F)
    (tr : list (event F)) :
  ndim targets <> 1 -> ndim targets <> 2 ->
  MultiOutputGP_init inputs targets tr
  = (Raise (ValueError "targets must be either a 1D or 2D array"), tr).
Proof.
  intros H1 H2. unfold MultiOutputGP_init. run_py.
  destruct (Nat.eqb_spec (ndim targets) 1); [contradiction|].
  destruct (Nat.eqb_spec (ndim targets) 2); [contradiction|].
  reflexivity.
Qed.

Lemma MultiOutputGP_init_inputs_rank (inputs targets : ndarray F)
    (tr : list (event F)) :
  wf_ndarray targets -> ndim targets = 1 \/ ndim targets = 2 ->
  ndim inputs <> 2 ->
  MultiOutputGP_init inputs targets tr
  = (Raise (ValueError "inputs must be 2D array"), tr).
Proof.
  intros Hwf Hr Hi. destruct targets as [sh t]. unfold wf_ndarray in Hwf.
  simpl in Hwf. unfold ndim in Hr; simpl in Hr.
  destruct Hr as [Hr|Hr].
  - destruct sh as [|k [|]]; try discriminate.
    rewrite MultiOutputGP_init_1D by (simpl in Hwf; lia).
    unfold MultiOutputGP_init. run_py. simpl.
    destruct (Nat.eqb_spec (ndim inputs) 2); [contradiction|reflexivity].
  - destruct sh as [|m [|k [|]]]; try discriminate.
    unfold MultiOutputGP_init. run_py. simpl.
    destruct (Nat.eqb_spec (ndim inputs) 2); [contradiction|reflexivity].
Qed.

Lemma MultiOutputGP_init_mismatch (inputs targets : ndarray F)
    (tr : list (event F)) :
  wf_ndarray targets -> ndim inputs = 2 ->
  ndim targets = 1 \/ ndim targets = 2 ->
  nth 0 (shape inputs) 0 <> last (shape targets) 0 ->
  MultiOutputGP_init inputs targets tr
  = (Raise (ValueError "the first dimension of inputs must be the same length as the second dimension of targets (or first if targets is 1D))"), tr).
Proof.
  intros Hwf Hi Hr Hne. destruct targets as [sh t]. unfold wf_ndarray in Hwf.
  destruct inputs as [shi xs]. unfold ndim in *. simpl in *.
  destruct shi as [|n0 [|d [|]]]; try discriminate. simpl in Hne.
  destruct Hr as [Hr|Hr].
  - destruct sh as [|k [|]]; try discriminate.
    rewrite MultiOutputGP_init_1D by (simpl in Hwf; lia).
    unfold MultiOutputGP_init, shape_at. run_py. simpl.
    destruct (Nat.eqb_spec n0 k); [contradiction|reflexivity].
  - destruct sh as [|m [|k [|]]]; try discriminate.
    unfold MultiOutputGP_init, shape_at. run_py. simpl.
    destruct (Nat.eqb_spec n0 k); [contradiction|reflexivity].
Qed.

(** What a successful construction has checked and built. *)
Lemma MultiOutputGP_init_inv (inputs targets : ndarray F)
    (tr tr' : list (event F)) (me : MultiOutputGP engine) :
  wf_ndarray targets ->
  MultiOutputGP_init inputs targets tr = (Ok me, tr') ->
  exists rows,
    shape inputs = [n me; D me]
    /\ (shape targets = [n me] /\ n_emulators me = 1
        \/ shape targets = [n_emulators me; n me])
    /\ length rows = n_emulators me
    /\ Forall (fun row => shape row = [n me] /\ length (data row) = n me) rows
    /\ concat (map data rows) = data targets
    /\ Forall2 (fun row gp => GaussianProcess_init inputs row = Ok gp)
         rows (emulators me)
    /\ tr' = tr ++ map (Ev_GaussianProcess inputs) rows.
Proof.
  intros Hwf Hinit.
  assert (Hcases : exists m k t,
             length t = m * k
             /\ data targets = t
             /\ (shape targets = [k] /\ m = 1 \/ shape targets = [m; k])
             /\ MultiOutputGP_init inputs {| shape := [m; k]; data := t |} tr
                = (Ok me, tr')).
  { destruct targets as [sh t]. unfold wf_ndarray in Hwf. simpl in Hwf.
    destruct (Nat.eq_dec (length sh) 1) as [H1|H1].
    - destruct sh as [|k [|]]; try discriminate.
      simpl in Hwf.
      rewrite MultiOutputGP_init_1D in Hinit by lia.
      exists 1, k, t. repeat split; auto. lia.
    - destruct (Nat.eq_dec (length sh) 2) as [H2|H2].
      + destruct sh as [|m [|k [|]]]; try discriminate.
        simpl in Hwf. exists m, k, t. repeat split; auto. lia.
      + rewrite MultiOutputGP_init_targets_rank in Hinit by assumption.
        discriminate. }
  destruct Hcases as (m & k & t & Hlen & Hdata & Hshape & Hinit2).
  clear Hinit.
  destruct (Nat.eq_dec (ndim inputs) 2) as [Hi|Hi].
  2:{ rewrite MultiOutputGP_init_inputs_rank in Hinit2; try discriminate; auto.
      unfold wf_ndarray; simpl; lia. }
  destruct inputs as [shi xs]. unfold ndim in Hi. simpl in Hi.
  destruct shi as [|n0 [|d [|]]]; try discriminate.
  destruct (Nat.eq_dec n0 k) as [->|Hne].
  2:{ rewrite MultiOutputGP_init_mismatch in Hinit2; try discriminate; auto.
      unfold wf_ndarray; simpl; lia. }
  rewrite MultiOutputGP_init_2D with (n0 := k) (d := d) (m := m) in Hinit2
    by reflexivity.
  simpl in Hinit2.
  destruct (mapM _ _ tr) as [[gps|e] tr''] eqn:Em; [|discriminate].
  injection Hinit2 as <- <-.
  apply mapM_new_GaussianProcess in Em. destruct Em as [Hgps ->].
  exists (map (fun r => {| shape := [k]; data := r |}) (pieces m (k * 1) t)).
  simpl. split; [reflexivity|].
  split; [exact Hshape|].
  split; [rewrite length_map; apply pieces_length|].
  split.
  { apply Forall_map. simpl.
    eapply Forall_impl; [|apply pieces_sizes; lia].
    simpl. intros p Hp. split; [reflexivity|lia]. }
  split.
  { rewrite map_map. simpl. rewrite map_id, Hdata. apply pieces_concat. lia. }
  split; [exact Hgps|reflexivity].
Qed.

End InitFacts.

(** ** What the methods leave alone *)

Section Frame.

Context {F engine : Type} `{GP : GaussianProcess F engine}.
Variable R : MultiOutputGP engine -> MultiOutputGP engine -> Prop.
Hypothesis R_refl : forall a, R a a.
Hypothesis R_trans : forall a b c, R a b -> R b c -> R a c.

Lemma keeps_ret {X} (x : X) : keeps R (ret (S := state F engine) x).
Proof. intros st; apply R_refl. Qed.

Lemma keeps_raise {X} (e : exn) : keeps R (raise (S := state F engine) (A := X) e).
Proof. intros st; apply R_refl. Qed.

Lemma keeps_liftO {X} (o : outcome X) : keeps R (liftO (S := state F engine) o).
Proof. intros st; apply R_refl. Qed.

Lemma keeps_get_self : keeps R (get_self (F := F) (engine := engine)).
Proof. intros st; apply R_refl. Qed.

Lemma keeps_assert (cond : bool) (msg : string) :
  keeps R (assert (S := state F engine) cond msg).
Proof. intros st; destruct cond; apply R_refl. Qed.

Lemma keeps_outside {X} (c : M (list (event F)) X) :
  keeps R (outside (engine := engine) c).
Proof.
  intros st. unfold outside. destruct (c (events st)). apply R_refl.
Qed.

Lemma keeps_bind {X Y} (c : M (state F engine) X) (k : X -> M (state F engine) Y) :
  keeps R c -> (forall x, keeps R (k x)) -> keeps R (bind c k).
Proof.
  intros Hc Hk st. unfold bind. specialize (Hc st).
  destruct (c st) as [[x|e] st']; simpl in *; [|assumption].
  eapply R_trans; [exact Hc|apply Hk].
Qed.

Lemma keeps_check_processes (processes : option pynum) (msg : string) :
  keeps R (check_processes (S := state F engine) processes msg).
Proof.
  destruct processes; simpl.
  - apply keeps_bind; [apply keeps_assert|intros; apply keeps_ret].
  - apply keeps_ret.
Qed.

Lemma keeps_unpack3 {X} (l : list X) :
  keeps R (unpack3 (S := state F engine) l).
Proof.
  destruct l as [|a [|b [|c [|d l]]]]; simpl;
    first [apply keeps_ret | apply keeps_raise].
Qed.

(** [predict] only reads the object. *)
Lemma keeps_predict os testing do_deriv do_unc processes :
  keeps R (predict os testing do_deriv do_unc processes).
Proof.
  unfold predict.
  repeat first
    [ apply keeps_bind; [|intros]
    | apply keeps_assert | apply keeps_liftO | apply keeps_get_self
    | apply keeps_check_processes | apply keeps_outside | apply keeps_unpack3 ].
  match goal with
  | |- context [match ?u with pair _ _ => _ end] => destruct u as [[? ?] ?]
  end.
  apply keeps_ret.
Qed.

End Frame.

(** ** The two methods, step by step *)

Section MethodFacts.

Context {F engine : Type} `{GP : GaussianProcess F engine}.

Lemma same_scalars_refl (a : MultiOutputGP engine) : same_scalars a a.
Proof. repeat split. Qed.

Lemma same_scalars_trans (a b c : MultiOutputGP engine) :
  same_scalars a b -> same_scalars b c -> same_scalars a c.
Proof. unfold same_scalars. intuition congruence. Qed.

Lemma reevaluate_length (gps : list engine) (vals : list (F * ndarray F)) :
  length (snd (reevaluate gps vals)) = length gps.
Proof.
  revert vals; induction gps as [|gp gps IH]; intros vals; simpl; [reflexivity|].
  destruct vals as [|[loglike theta] vals]; [reflexivity|].
  destruct (GaussianProcess_loglikelihood gp theta) as [[score|e] gp'].
  - specialize (IH vals). destruct (reevaluate gps vals). simpl in *.
    congruence.
  - reflexivity.
Qed.

(** After the loop every engine holds the parameters returned for it. *)
Lemma reevaluate_theta (gps gps' : list engine) (vals : list (F * ndarray F)) :
  loglikelihood_contract ->
  length vals = length gps ->
  reevaluate gps vals = (Ok tt, gps') ->
  Forall2 (fun gp res => current_theta gp = Some (snd res)) gps' vals.
Proof.
  intros Hlaw. revert gps' vals; induction gps as [|gp gps IH];
    intros gps' vals Hlen; simpl.
  - destruct vals; [|discriminate]. intros [= <-]. constructor.
  - destruct vals as [|[loglike theta] vals]; [discriminate|].
    destruct (GaussianProcess_loglikelihood gp theta) as [[score|e] gp'] eqn:Ell;
      [|discriminate].
    destruct (reevaluate gps vals) as [r gps''] eqn:Er.
    intros [= -> <-]. constructor.
    + simpl. eapply Hlaw; eauto.
    + apply IH; [simpl in Hlen; lia|assumption].
Qed.

Lemma keeps_reevaluate_all (vals : list (F * ndarray F)) :
  keeps same_scalars (reevaluate_all vals).
Proof.
  intros st. unfold reevaluate_all.
  pose proof (reevaluate_length (emulators (self st)) vals) as Hlen.
  destruct (reevaluate (emulators (self st)) vals) as [r gps]. simpl in *.
  repeat split. simpl. congruence.
Qed.

(** [learn_hyperparameters] changes engines, never their number nor the
    three scalars. *)
Lemma keeps_learn_hyperparameters os n_tries verbose x0 processes :
  keeps same_scalars (learn_hyperparameters os n_tries verbose x0 processes).
Proof.
  pose proof same_scalars_refl as Hr. pose proof same_scalars_trans as Ht.
  unfold learn_hyperparameters.
  apply keeps_bind; auto; [apply keeps_assert; auto|intros _].
  apply keeps_bind; auto.
  { destruct x0 as [x|]; [|apply keeps_ret; auto].
    repeat first
      [ apply keeps_bind; auto; [|intros]
      | apply keeps_assert; auto | apply keeps_liftO; auto
      | apply keeps_get_self; auto | apply keeps_ret; auto ]. }
  intros x0'.
  repeat first
    [ apply keeps_bind; auto; [|intros]
    | apply keeps_check_processes; auto | apply keeps_outside; auto
    | apply keeps_get_self; auto | apply keeps_reevaluate_all
    | apply keeps_ret; auto ].
Qed.

Lemma lifetime_same_scalars (st0 st : state F engine) :
  lifetime st0 st -> same_scalars (self st0) (self st).
Proof.
  induction 1 as [|os n_tries verbose x0 processes st _ IH
                  |os testing do_deriv do_unc processes st _ IH].
  - apply same_scalars_refl.
  - eapply same_scalars_trans; [exact IH|apply keeps_learn_hyperparameters].
  - eapply same_scalars_trans; [exact IH|].
    apply keeps_predict; [apply same_scalars_refl|apply same_scalars_trans].
Qed.

(** A constructed collection holds as many engines as it says. *)
Lemma constructed_length (st : state F engine) :
  constructed st -> length (emulators (self st)) = n_emulators (self st).
Proof.
  intros (inputs & targets & tr & me & tr' & Hinit & Hlife).
  apply lifetime_same_scalars in Hlife. destruct Hlife as (H1 & _ & _ & H4).
  simpl in *. rewrite <- H1, <- H4. clear H1 H4 st.
  destruct (Nat.eq_dec (ndim targets) 1) as [E1|E1].
  - destruct targets as [sh t]. unfold ndim in E1; simpl in E1.
    destruct sh as [|k [|]]; try discriminate.
    destruct (Nat.eq_dec (length t) k) as [Ek|Ek].
    + assert (Hwf : wf_ndarray {| shape := [k]; data := t |})
        by (unfold wf_ndarray; simpl; lia).
      destruct (MultiOutputGP_init_inv _ _ _ _ _ Hwf Hinit)
        as (rows & _ & _ & Hl & _ & _ & H2 & _).
      apply Forall2_length in H2. congruence.
    + exfalso. revert Hinit.
      unfold MultiOutputGP_init, ndim, py_len, np_reshape. run_py. simpl.
      destruct (Nat.eqb_spec (length t) (k * 1 + 0)); [lia|discriminate].
  - destruct (Nat.eq_dec (ndim targets) 2) as [E2|E2].
    2:{ rewrite MultiOutputGP_init_targets_rank in Hinit by assumption.
        discriminate. }
    destruct (Nat.eq_dec (ndim inputs) 2) as [Ei|Ei].
    2:{ exfalso. revert Hinit. unfold MultiOutputGP_init. run_py.
        rewrite E2. simpl.
        destruct (Nat.eqb_spec (ndim inputs) 2); [contradiction|discriminate]. }
    destruct targets as [sh t], inputs as [shi xs]. unfold ndim in *.
    simpl in *.
    destruct sh as [|m [|k [|]]]; try discriminate.
    destruct shi as [|n0 [|d [|]]]; try discriminate.
    destruct (Nat.eq_dec n0 k) as [->|Hne].
    + rewrite MultiOutputGP_init_2D with (n0 := k) (d := d) (m := m) in Hinit
        by reflexivity.
      simpl in Hinit.
      destruct (mapM _ _ tr) as [[gps|e] tr''] eqn:Em; [|discriminate].
      injection Hinit as <- <-. simpl.
      apply mapM_new_GaussianProcess in Em. destruct Em as [Hgps _].
      apply Forall2_length in Hgps.
      rewrite length_map, pieces_length in Hgps. congruence.
    + exfalso. revert Hinit. unfold MultiOutputGP_init, ndim, shape_at. run_py.
      simpl. destruct (Nat.eqb_spec n0 k); [contradiction|discriminate].
Qed.

Lemma check_processes_run {S} (processes : option pynum) (msg : string) (s : S) :
  check_processes processes msg s
  = match processes with
    | Some p => if (0 <? py_int p)%Z
                then (Ok (Some (py_int p)), s)
                else (Raise (AssertionError msg), s)
    | None => (Ok None, s)
    end.
Proof.
  destruct processes as [p|]; simpl; [|reflexivity].
  run_py. destruct (0 <? py_int p)%Z; reflexivity.
Qed.

Lemma Pool_run (os : OS) (processes : option pynum) (tr : list (event F)) :
  valid_processes processes ->
  Pool os (option_map py_int processes) tr
  = (Ok (pool_size os processes), tr ++ [Ev_Pool (pool_size os processes)]).
Proof.
  intros Hv. unfold Pool, pool_size. run_py.
  destruct processes as [p|]; cbn [option_map].
  - simpl in Hv. destruct (Z.ltb_spec (py_int p) 1); [lia|reflexivity].
  - destruct (cpu_count os) as [[|c]|]; try reflexivity.
    destruct (Z.ltb_spec (Z.of_nat (S c)) 1); [lia|].
    rewrite Nat2Z.id. reflexivity.
Qed.

(** The body of [learn_hyperparameters] once its arguments have passed the
    three checks. *)
Lemma learn_hyperparameters_run os n_tries verbose x0 processes
    (st : state F engine) :
  (0 < py_int n_tries)%Z -> valid_x0 (self st) x0 -> valid_processes processes ->
  learn_hyperparameters os n_tries verbose x0 processes st
  = let me := self st in
    let x0' := option_map np_array1 x0 in
    let tr := events st
              ++ [Ev_Pool (pool_size os processes);
                  Ev_starmap
                    (Call_learn_hyperparameters (py_int n_tries) verbose x0')
                    (length (emulators me))] in
    match starmap_result (pool_size os processes) (completion os)
            (fun gp => GaussianProcess_learn_hyperparameters gp
                         (py_int n_tries) verbose x0')
            (emulators me) with
    | Ok vals =>
        let (r, gps) := reevaluate (emulators me) vals in
        (match r with Ok _ => Ok vals | Raise e => Raise e end,
         {| self := {| emulators := gps; n_emulators := n_emulators me;
                       n := n me; D := D me |};
            events := tr |})
    | Raise e => (Raise e, {| self := me; events := tr |})
    end.
Proof.
  intros Hn Hx Hp. unfold learn_hyperparameters.
  unfold bind at 1. unfold assert at 1.
  destruct (Z.ltb_spec 0 (py_int n_tries)); [|lia]. unfold ret at 1.
  match goal with
  | |- bind ?c _ st = _ =>
      assert (Ex0 : c st = (Ok (option_map np_array1 x0), st));
        [|unfold bind at 1; rewrite Ex0]
  end.
  { destruct x0 as [x|]; [|reflexivity]. simpl in Hx. run_py. simpl.
    destruct (Nat.eqb_spec (length x) (D (self st) + 2)); [reflexivity|lia]. }
  unfold bind at 1. rewrite check_processes_run.
  match goal with
  | |- match ?c with _ => _ end = _ =>
      assert (Ep : c = (Ok (option_map py_int processes), st));
        [|rewrite Ep]
  end.
  { destruct processes as [p|]; simpl in *; [|reflexivity].
    destruct (Z.ltb_spec 0 (py_int p)); [reflexivity|lia]. }
  unfold bind at 1. unfold outside at 1. rewrite Pool_run by assumption.
  unfold bind at 1. unfold get_self at 1. simpl self. simpl events.
  unfold bind at 1. unfold outside at 1, starmap. unfold bind at 1.
  unfold emit at 1. unfold liftO at 1. simpl events. simpl self.
  rewrite <- app_assoc. simpl app.
  destruct (starmap_result _ _ _ _) as [vals|e]; [|reflexivity].
  unfold bind, reevaluate_all, ret. simpl.
  destruct (reevaluate (emulators (self st)) vals) as [[[]|e] gps]; reflexivity.
Qed.

Lemma learn_hyperparameters_rejects_n_tries os n_tries verbose x0 processes
    (st : state F engine) :
  (py_int n_tries <= 0)%Z ->
  learn_hyperparameters os n_tries verbose x0 processes st
  = (Raise (AssertionError "n_tries must be a positive integer"), st).
Proof.
  intros Hn. unfold learn_hyperparameters. unfold bind at 1, assert at 1.
  destruct (Z.ltb_spec 0 (py_int n_tries)); [lia|reflexivity].
Qed.

Lemma learn_hyperparameters_rejects_x0 os n_tries verbose x processes
    (st : state F engine) :
  (0 < py_int n_tries)%Z -> length x <> D (self st) + 2 ->
  learn_hyperparameters os n_tries verbose (Some x) processes st
  = (Raise (AssertionError
              "x0 must have length of number of input parameters D + 2"), st).
Proof.
  intros Hn Hx. unfold learn_hyperparameters. unfold bind at 1, assert at 1.
  destruct (Z.ltb_spec 0 (py_int n_tries)); [|lia]. run_py. simpl.
  destruct (Nat.eqb_spec (length x) (D (self st) + 2)); [contradiction|].
  reflexivity.
Qed.

Lemma learn_hyperparameters_rejects_processes os n_tries verbose x0 p
    (st : state F engine) :
  (0 < py_int n_tries)%Z -> valid_x0 (self st) x0 -> (py_int p <= 0)%Z ->
  learn_hyperparameters os n_tries verbose x0 (Some p) st
  = (Raise (AssertionError "number of processes must be positive"), st).
Proof.
  intros Hn Hx Hp. unfold learn_hyperparameters. unfold bind at 1, assert at 1.
  destruct (Z.ltb_spec 0 (py_int n_tries)); [|lia]. unfold ret at 1.
  match goal with
  | |- bind ?c _ st = _ =>
      assert (Ex0 : c st = (Ok (option_map np_array1 x0), st));
        [|unfold bind at 1; rewrite Ex0]
  end.
  { destruct x0 as [x|]; [|reflexivity]. simpl in Hx. run_py. simpl.
    destruct (Nat.eqb_spec (length x) (D (self st) + 2)); [reflexivity|lia]. }
  unfold bind at 1. rewrite check_processes_run.
  destruct (Z.ltb_spec 0 (py_int p)); [lia|reflexivity].
Qed.

Lemma shape_eqb_refl (s : list nat) : shape_eqb s s = true.
Proof. induction s; simpl; [reflexivity|]. rewrite Nat.eqb_refl; assumption. Qed.

(** Arrays of one shape stack into an array with one more axis. *)
Lemma np_array_of_same_shape (l : list (ndarray F)) (s : list nat) :
  l <> [] -> Forall (fun a => shape a = s) l ->
  np_array_of l = Ok {| shape := length l :: s; data := concat (map data l) |}.
Proof.
  intros Hne Hs. destruct l as [|a l]; [contradiction|].
  unfold np_array_of. inversion Hs as [|? ? Ha Hl]; subst.
  replace (forallb (fun b => shape_eqb (shape a) (shape b)) l) with true;
    [reflexivity|].
  symmetry. apply forallb_forall. intros b Hb.
  rewrite Forall_forall in Hl. rewrite (Hl b Hb). apply shape_eqb_refl.
Qed.

(** The body of [predict] once its arguments have passed the checks. *)
Lemma predict_run os testing do_deriv do_unc processes (st : state F engine)
    (q : nat) :
  shape testing = [q; D (self st)] -> valid_processes processes ->
  predict os testing do_deriv do_unc processes st
  = let me := self st in
    let st' := {| self := me;
                  events := events st
                    ++ [Ev_Pool (pool_size os processes);
                        Ev_starmap (Call_predict testing)
                          (length (emulators me))] |} in
    match starmap_result (pool_size os processes) (completion os)
            (fun gp => GaussianProcess_predict gp testing) (emulators me) with
    | Ok vals =>
        match mapO np_array_of (zip_star vals) with
        | Ok [a; b; c] =>
            (Ok (a, if do_unc then Some b else None,
                 if do_deriv then Some c else None), st')
        | Ok [] =>
            (Raise (ValueError "not enough values to unpack (expected 3, got 0)"),
             st')
        | Ok _ =>
            (Raise (ValueError "wrong number of values to unpack (expected 3)"),
             st')
        | Raise e => (Raise e, st')
        end
    | Raise e => (Raise e, st')
    end.
Proof.
  intros Ht Hp. unfold predict, ndim, shape_at. rewrite Ht.
  cbn [length Nat.eqb nth_error]. unfold bind at 1, assert at 1, ret at 1.
  unfold bind at 1, liftO at 1. unfold bind at 1, get_self at 1.
  unfold bind at 1, assert at 1. rewrite Nat.eqb_refl. unfold ret at 1.
  unfold bind at 1. rewrite check_processes_run.
  match goal with
  | |- match ?c with _ => _ end = _ =>
      assert (Ep : c = (Ok (option_map py_int processes), st));
        [|rewrite Ep]
  end.
  { destruct processes as [p|]; simpl in *; [|reflexivity].
    destruct (Z.ltb_spec 0 (py_int p)); [reflexivity|lia]. }
  unfold bind at 1. unfold outside at 1. rewrite Pool_run by assumption.
  unfold bind at 1. unfold get_self at 1. simpl self. simpl events.
  unfold bind at 1. unfold outside at 1, starmap. unfold bind at 1.
  unfold emit at 1. unfold liftO at 1. simpl events. simpl self.
  rewrite <- app_assoc. simpl app.
  destruct (starmap_result _ _ _ _) as [vals|e]; [|reflexivity].
  unfold bind at 1, liftO at 1.
  destruct (mapO np_array_of (zip_star vals)) as [arrays|e]; [|reflexivity].
  destruct arrays as [|a [|b [|c [|d arrays]]]]; try reflexivity.
  unfold bind, unpack3, ret. destruct do_unc, do_deriv; reflexivity.
Qed.

Lemma predict_rejects_processes os testing do_deriv do_unc p
    (st : state F engine) :
  (py_int p <= 0)%Z ->
  exists msg,
    predict os testing do_deriv do_unc (Some p) st
    = (Raise (AssertionError msg), st).
Proof.
  intros Hp. unfold predict. unfold bind at 1, assert at 1.
  destruct (Nat.eqb_spec (ndim testing) 2) as [Hr|Hr]; [|eexists; reflexivity].
  unfold ret at 1. unfold ndim in Hr. unfold shape_at.
  destruct (shape testing) as [|q [|d [|]]]; try discriminate.
  cbn [nth_error]. unfold bind at 1, liftO at 1.
  unfold bind at 1, get_self at 1. unfold bind at 1, assert at 1.
  destruct (Nat.eqb_spec d (D (self st))); [|eexists; reflexivity].
  unfold ret at 1. unfold bind at 1. rewrite check_processes_run.
  destruct (Z.ltb_spec 0 (py_int p)); [lia|eexists; reflexivity].
Qed.

End MethodFacts.

(** ** Numbers *)

Lemma nonpositive_py_int (x : pynum) : nonpositive x -> (py_int x <= 0)%Z.
Proof.
  destruct x as [z|[a b]]; simpl; [trivial|].
  unfold Qle; simpl. intros H.
  assert (Ha : (a <= 0)%Z) by lia.
  assert (Hq : (0 <= Z.quot (- a) (Z.pos b))%Z) by (apply Z.quot_pos; lia).
  rewrite Z.quot_opp_l in Hq by discriminate. lia.
Qed.

(** * The claims *)

Section Claims.

Context {F engine : Type} `{GP : GaussianProcess F engine}.

(** C1: on a constructed collection, a fit call with valid arguments in which
    every engine's fit returns (and the re-evaluation that follows returns)
    yields exactly [n_emulators] pairs, the [i]-th being what engine [i]
    returned, and yields the same list for every valid [processes] ([None],
    one or many) on every machine and for every order in which the workers
    finish. *)
Theorem learn_hyperparameters_in_engine_order
    (st : state F engine) (n_tries : pynum) (verbose : bool)
    (x0 : option (list F)) (r : list (F * ndarray F)) :
  constructed st ->
  (0 < py_int n_tries)%Z ->
  valid_x0 (self st) x0 ->
  Forall2 (fun gp res =>
             GaussianProcess_learn_hyperparameters gp (py_int n_tries) verbose
               (option_map np_array1 x0) = Ok res)
          (emulators (self st)) r ->
  fst (reevaluate (emulators (self st)) r) = Ok tt ->
  length r = n_emulators (self st)
  /\ forall os processes,
       valid_processes processes ->
       fst (learn_hyperparameters os n_tries verbose x0 processes st) = Ok r.
Proof.
  intros Hc Hn Hx Hfit Hre. split.
  - rewrite <- (constructed_length _ Hc). symmetry.
    eapply Forall2_length; eauto.
  - intros os processes Hp.
    rewrite learn_hyperparameters_run by assumption. cbv zeta.
    apply mapO_Forall2 in Hfit.
    rewrite (starmap_result_returns _ (pool_size os processes)
               (completion os) _ _ Hfit).
    destruct (reevaluate (emulators (self st)) r) as [[[]|e] gps];
      simpl in *; [reflexivity|discriminate].
Qed.

(** C2, as the code has it: on a constructed collection with at least one
    engine, for a query table of [q] points in [D] dimensions on which every
    engine keeps its [predict] contract, [predict] returns the engines' means
    stacked in engine order with shape [(n_emulators, q)], their variances
    with shape [(n_emulators, q)] and their derivatives with shape
    [(n_emulators, q, D)]; [do_unc = False] replaces only the variances by
    [None] and [do_deriv = False] only the derivatives, the other components
    staying as they are. *)
Theorem predict_shapes
    (st : state F engine) (testing : ndarray F) (q : nat) :
  constructed st ->
  1 <= n_emulators (self st) ->
  shape testing = [q; D (self st)] ->
  Forall (predict_contract testing q (D (self st))) (emulators (self st)) ->
  exists vals means variances derivatives,
    Forall2 (fun gp t => GaussianProcess_predict gp testing = Ok t)
      (emulators (self st)) vals
    /\ np_array_of (map (fun t => fst (fst t)) vals) = Ok means
    /\ np_array_of (map (fun t => snd (fst t)) vals) = Ok variances
    /\ np_array_of (map (fun t => snd t) vals) = Ok derivatives
    /\ shape means = [n_emulators (self st); q]
    /\ shape variances = [n_emulators (self st); q]
    /\ shape derivatives = [n_emulators (self st); q; D (self st)]
    /\ forall os do_deriv do_unc processes,
         valid_processes processes ->
         fst (predict os testing do_deriv do_unc processes st)
         = Ok (means,
               if do_unc then Some variances else None,
               if do_deriv then Some derivatives else None).
Proof.
  intros Hc Hk Ht Hcontract.
  pose proof (constructed_length _ Hc) as Hlen.
  assert (Hvals : exists vals,
             Forall2 (fun gp t => GaussianProcess_predict gp testing = Ok t)
               (emulators (self st)) vals
             /\ Forall (fun t => shape (fst (fst t)) = [q]
                                 /\ shape (snd (fst t)) = [q]
                                 /\ shape (snd t) = [q; D (self st)]) vals).
  { clear Hlen Hk. induction Hcontract as [|gp gps Hgp _ IH].
    - exists []. split; constructor.
    - destruct IH as (vals & H1 & H2).
      destruct Hgp as (mean & unc & deriv & Hp & Hm & Hu & Hd).
      exists ((mean, unc, deriv) :: vals). split; constructor; auto. }
  destruct Hvals as (vals & Hvals & Hshapes).
  pose proof (Forall2_length Hvals) as Hlv.
  assert (Hne : vals <> []) by (destruct vals; [simpl in Hlv; lia|discriminate]).
  pose (means := {| shape := length (map (fun t => fst (fst t)) vals) :: [q];
                    data := concat (map data (map (fun t => fst (fst t)) vals)) |}).
  pose (variances :=
          {| shape := length (map (fun t => snd (fst t)) vals) :: [q];
             data := concat (map data (map (fun t => snd (fst t)) vals)) |}).
  pose (derivatives :=
          {| shape := length (map (fun t => snd t) vals) :: [q; D (self st)];
             data := concat (map data (map (fun t => snd t) vals)) |}).
  exists vals, means, variances, derivatives.
  assert (Hm : np_array_of (map (fun t => fst (fst t)) vals) = Ok means).
  { apply np_array_of_same_shape with (s := [q]).
    - destruct vals; [contradiction|discriminate].
    - apply Forall_map. eapply Forall_impl; [|exact Hshapes].
      intros t (H1 & H2 & H3); assumption. }
  assert (Hu : np_array_of (map (fun t => snd (fst t)) vals) = Ok variances).
  { apply np_array_of_same_shape with (s := [q]).
    - destruct vals; [contradiction|discriminate].
    - apply Forall_map. eapply Forall_impl; [|exact Hshapes].
      intros t (H1 & H2 & H3); assumption. }
  assert (Hd : np_array_of (map (fun t => snd t) vals) = Ok derivatives).
  { apply np_array_of_same_shape with (s := [q; D (self st)]).
    - destruct vals; [contradiction|discriminate].
    - apply Forall_map. eapply Forall_impl; [|exact Hshapes].
      intros t (H1 & H2 & H3); assumption. }
  split; [exact Hvals|].
  split; [exact Hm|]. split; [exact Hu|]. split; [exact Hd|].
  simpl. rewrite !length_map.
  split; [f_equal; lia|]. split; [f_equal; lia|]. split; [f_equal; lia|].
  intros os do_deriv do_unc processes Hp.
  rewrite predict_run with (q := q) by assumption. cbv zeta.
  apply mapO_Forall2 in Hvals.
  rewrite (starmap_result_returns _ (pool_size os processes)
             (completion os) _ _ Hvals).
  unfold zip_star. destruct vals as [|v vals]; [contradiction|].
  cbn [mapO]. rewrite Hm, Hu, Hd. reflexivity.
Qed.

(** C3: when a fit call returns, the engines are the ones left by
    re-evaluating, engine by engine and after the pool has returned, the
    likelihood at the parameters returned for that engine; with an engine
    whose [loglikelihood] stores the parameters it is evaluated at, every
    engine then holds the parameter vector returned for it. *)
Theorem learn_hyperparameters_resynchronises
    (st st' : state F engine) (os : OS) (n_tries : pynum) (verbose : bool)
    (x0 : option (list F)) (processes : option pynum)
    (r : list (F * ndarray F)) :
  loglikelihood_contract (F := F) (engine := engine) ->
  learn_hyperparameters os n_tries verbose x0 processes st = (Ok r, st') ->
  reevaluate (emulators (self st)) r = (Ok tt, emulators (self st'))
  /\ Forall2 (fun gp res => current_theta gp = Some (snd res))
       (emulators (self st')) r.
Proof.
  intros Hlaw Hrun.
  destruct (Z.lt_ge_cases 0 (py_int n_tries)) as [Hn|Hn].
  2:{ rewrite learn_hyperparameters_rejects_n_tries in Hrun by lia.
      discriminate. }
  assert (Hx : valid_x0 (self st) x0).
  { destruct x0 as [x|]; simpl; [|trivial].
    destruct (Nat.eq_dec (length x) (D (self st) + 2)) as [E|E]; [exact E|].
    rewrite learn_hyperparameters_rejects_x0 in Hrun by assumption.
    discriminate. }
  assert (Hp : valid_processes processes).
  { destruct processes as [p|]; simpl; [|trivial].
    destruct (Z.lt_ge_cases 0 (py_int p)) as [E|E]; [exact E|].
    rewrite learn_hyperparameters_rejects_processes in Hrun
      by (assumption || lia).
    discriminate. }
  rewrite learn_hyperparameters_run in Hrun by assumption. cbv zeta in Hrun.
  destruct (starmap_result _ _ _ _) as [vals|e] eqn:Es; [|discriminate].
  apply starmap_result_iff in Es. apply mapO_length in Es.
  destruct (reevaluate (emulators (self st)) vals) as [[[]|e] gps] eqn:Er;
    [|discriminate].
  injection Hrun as -> <-. simpl. split; [exact Er|].
  eapply reevaluate_theta; eauto.
Qed.

(** C4: with a target vector of length [n], the constructor does on the
    one-dimensional array what it does on the table of one row holding the
    same values: it raises the same error or returns the same collection,
    after the same engine constructions; a collection it returns has one
    engine, built from [inputs] and that row, and [n] training points. *)
Theorem targets_1D_as_single_row
    (inputs : ndarray F) (t : list F) (k : nat) (tr : list (event F)) :
  length t = k ->
  MultiOutputGP_init inputs {| shape := [k]; data := t |} tr
  = MultiOutputGP_init inputs {| shape := [1; k]; data := t |} tr
  /\ forall me tr',
       MultiOutputGP_init inputs {| shape := [k]; data := t |} tr = (Ok me, tr') ->
       n_emulators me = 1 /\ n me = k
       /\ shape inputs = [k; D me]
       /\ exists gp,
            emulators me = [gp]
            /\ GaussianProcess_init inputs {| shape := [k]; data := t |} = Ok gp.
Proof.
  intros Hk. split; [apply MultiOutputGP_init_1D, Hk|].
  intros me tr' Hinit.
  assert (Hwf : wf_ndarray {| shape := [k]; data := t |})
    by (unfold wf_ndarray; simpl; lia).
  destruct (MultiOutputGP_init_inv _ _ _ _ _ Hwf Hinit)
    as (rows & Hi & Hs & Hl & Hrows & Hcat & Hgps & _).
  simpl in Hs, Hcat.
  assert (H1 : n_emulators me = 1 /\ n me = k).
  { destruct Hs as [[[= E] H1]|[=]]. auto. }
  destruct H1 as [H1 H2]. rewrite H1 in Hl.
  pose proof (Forall2_length Hgps) as Hl2. rewrite Hl in Hl2.
  destruct rows as [|row [|]]; try discriminate.
  destruct (emulators me) as [|gp [|]] eqn:Eem; try discriminate.
  assert (Hgp : GaussianProcess_init inputs row = Ok gp)
    by (inversion Hgps; assumption).
  assert (Hsh : shape row = [n me])
    by (inversion Hrows as [|? ? [? ?] ?]; assumption).
  simpl in Hcat. rewrite app_nil_r in Hcat.
  destruct row as [sh d]. simpl in Hsh, Hcat. rewrite Hsh, Hcat, H2 in Hgp.
  split; [exact H1|]. split; [exact H2|].
  split; [rewrite Hi, H2; reflexivity|].
  exists gp. split; [reflexivity|exact Hgp].
Qed.

(** C5, as the code has it: a successfully constructed collection has a
    two-dimensional design matrix of shape [(n, D)] and exactly [n_emulators]
    engines, one per target row in order, each built from the shared design
    matrix and a target vector of length exactly [n].  (That [n], [D] and
    [n_emulators] are at least one is not part of it: the constructor has no
    check for an empty design matrix or an empty target set.) *)
Theorem construction_invariant
    (inputs targets : ndarray F) (tr tr' : list (event F))
    (me : MultiOutputGP engine) :
  wf_ndarray targets ->
  MultiOutputGP_init inputs targets tr = (Ok me, tr') ->
  shape inputs = [n me; D me]
  /\ length (emulators me) = n_emulators me
  /\ exists rows,
       length rows = n_emulators me
       /\ Forall (fun row => shape row = [n me] /\ length (data row) = n me) rows
       /\ concat (map data rows) = data targets
       /\ Forall2 (fun row gp => GaussianProcess_init inputs row = Ok gp)
            rows (emulators me).
Proof.
  intros Hwf Hinit.
  destruct (MultiOutputGP_init_inv _ _ _ _ _ Hwf Hinit)
    as (rows & Hi & _ & Hl & Hrows & Hcat & Hgps & _).
  split; [exact Hi|]. split.
  - rewrite <- Hl. symmetry. eapply Forall2_length; eauto.
  - exists rows. auto.
Qed.

(** C6: when [inputs] is two-dimensional, [targets] is one- or
    two-dimensional and the first dimension of [inputs] differs from the last
    dimension of [targets], the constructor raises the [ValueError] whose
    message names the first dimension of inputs and the second (or first)
    dimension of targets, before it has constructed any engine. *)
Theorem mismatched_dimensions_rejected
    (inputs targets : ndarray F) (tr : list (event F)) :
  wf_ndarray targets ->
  ndim inputs = 2 ->
  ndim targets = 1 \/ ndim targets = 2 ->
  nth 0 (shape inputs) 0 <> last (shape targets) 0 ->
  MultiOutputGP_init inputs targets tr
  = (Raise (ValueError "the first dimension of inputs must be the same length as the second dimension of targets (or first if targets is 1D))"), tr).
Proof. apply MultiOutputGP_init_mismatch. Qed.

(** C7, as the code has it: an [inputs] whose rank is not 2, with a [targets]
    of rank 1 or 2, makes the constructor raise the [ValueError] with message
    "inputs must be 2D array"; a [targets] of a rank other than 1 and 2 makes
    it raise the [ValueError] with message "targets must be either a 1D or 2D
    array"; in both cases before any engine is constructed. *)
Theorem wrong_rank_rejected :
  (forall (inputs targets : ndarray F) (tr : list (event F)),
      wf_ndarray targets ->
      ndim targets = 1 \/ ndim targets = 2 ->
      ndim inputs <> 2 ->
      MultiOutputGP_init inputs targets tr
      = (Raise (ValueError "inputs must be 2D array"), tr))
  /\ (forall (inputs targets : ndarray F) (tr : list (event F)),
         ndim targets <> 1 -> ndim targets <> 2 ->
         MultiOutputGP_init inputs targets tr
         = (Raise (ValueError "targets must be either a 1D or 2D array"), tr)).
Proof.
  split.
  - apply MultiOutputGP_init_inputs_rank.
  - apply MultiOutputGP_init_targets_rank.
Qed.

(** C8: a call of [learn_hyperparameters] with [n_tries <= 0], with
    [processes <= 0] or with an [x0] whose length is not [D + 2], and a call
    of [predict] with [processes <= 0], raises an [AssertionError] and leaves
    the state as it was: no pool has been created, nothing dispatched, and
    the collection and its engines are untouched. *)
Theorem invalid_arguments_rejected_before_dispatch
    (st : state F engine) (os : OS) :
  (forall n_tries verbose x0 processes,
      nonpositive n_tries
      \/ (exists p, processes = Some p /\ nonpositive p)
      \/ (exists x, x0 = Some x /\ length x <> D (self st) + 2) ->
      exists msg,
        learn_hyperparameters os n_tries verbose x0 processes st
        = (Raise (AssertionError msg), st))
  /\ (forall testing do_deriv do_unc p,
         nonpositive p ->
         exists msg,
           predict os testing do_deriv do_unc (Some p) st
           = (Raise (AssertionError msg), st)).
Proof.
  split.
  - intros n_tries verbose x0 processes Hbad.
    destruct (Z.lt_ge_cases 0 (py_int n_tries)) as [Hn|Hn].
    2:{ eexists. apply learn_hyperparameters_rejects_n_tries. lia. }
    assert (Hx : valid_x0 (self st) x0
                 \/ exists x, x0 = Some x /\ length x <> D (self st) + 2).
    { destruct x0 as [x|]; simpl; [|auto].
      destruct (Nat.eq_dec (length x) (D (self st) + 2)); eauto. }
    destruct Hx as [Hx|(x & -> & Hx)].
    2:{ eexists. apply learn_hyperparameters_rejects_x0; assumption. }
    destruct Hbad as [Hbad|[(p & -> & Hp)|(x & -> & Hbad)]].
    + apply nonpositive_py_int in Hbad. lia.
    + eexists. apply learn_hyperparameters_rejects_processes; auto.
      apply nonpositive_py_int, Hp.
    + simpl in Hx. contradiction.
  - intros testing do_deriv do_unc p Hp.
    apply predict_rejects_processes, nonpositive_py_int, Hp.
Qed.

(** C9: for a collection constructed from an [(n, D)] table of inputs and an
    [(n_emulators, n)] table of targets, at every point of its life (right
    after construction and after any calls of [learn_hyperparameters] and
    [predict]) the three accessors return [n_emulators], [n] and [D], never
    raise, and leave the state as it is. *)
Theorem accessors_fixed_for_life
    (inputs targets : ndarray F) (tr tr' : list (event F))
    (me : MultiOutputGP engine) (n0 d m : nat) (st : state F engine) :
  shape inputs = [n0; d] ->
  shape targets = [m; n0] ->
  MultiOutputGP_init inputs targets tr = (Ok me, tr') ->
  lifetime {| self := me; events := tr' |} st ->
  get_n_emulators st = (Ok m, st)
  /\ get_n st = (Ok n0, st)
  /\ get_D st = (Ok d, st).
Proof.
  intros Hi Ht Hinit Hlife.
  rewrite MultiOutputGP_init_2D with (n0 := n0) (d := d) (m := m) in Hinit
    by assumption.
  destruct (mapM _ _ tr) as [[gps|e] tr'']; [|discriminate].
  injection Hinit as <- <-.
  apply lifetime_same_scalars in Hlife.
  destruct Hlife as (H1 & H2 & H3 & _). simpl in *.
  unfold get_n_emulators, get_n, get_D. run_py.
  rewrite <- H1, <- H2, <- H3. auto.
Qed.

(** C10: [learn_hyperparameters] uses [n_tries] only through [int(n_tries)]:
    when that is at least 1 it creates the pool and dispatches one fit per
    engine with [int(n_tries)] restarts (so 15.9 does what 15 does), and when
    it is at most 0 (as for 0.5) it raises the [n_tries] assertion and does
    nothing else; [processes] is likewise used only through [int(processes)]
    in [learn_hyperparameters] and in [predict], and rejected when that is
    at most 0. *)
Theorem integer_arguments_are_truncated
    (st : state F engine) (os : OS) (verbose : bool) (x0 : option (list F)) :
  (forall n_tries processes,
      (1 <= py_int n_tries)%Z -> valid_x0 (self st) x0 ->
      valid_processes processes ->
      events (snd (learn_hyperparameters os n_tries verbose x0 processes st))
      = events st
        ++ [Ev_Pool (pool_size os processes);
            Ev_starmap
              (Call_learn_hyperparameters (py_int n_tries) verbose
                 (option_map np_array1 x0))
              (length (emulators (self st)))])
  /\ (forall processes,
         learn_hyperparameters os (PyFloat (159 # 10)) verbose x0 processes st
         = learn_hyperparameters os (PyInt 15) verbose x0 processes st)
  /\ (forall n_tries processes,
         (py_int n_tries <= 0)%Z ->
         learn_hyperparameters os n_tries verbose x0 processes st
         = (Raise (AssertionError "n_tries must be a positive integer"), st))
  /\ (forall processes,
         learn_hyperparameters os (PyFloat (1 # 2)) verbose x0 processes st
         = (Raise (AssertionError "n_tries must be a positive integer"), st))
  /\ (forall n_tries n_tries' p p',
         py_int n_tries = py_int n_tries' -> py_int p = py_int p' ->
         learn_hyperparameters os n_tries verbose x0 (Some p) st
         = learn_hyperparameters os n_tries' verbose x0 (Some p') st)
  /\ (forall n_tries p,
         (1 <= py_int n_tries)%Z -> valid_x0 (self st) x0 ->
         (py_int p <= 0)%Z ->
         learn_hyperparameters os n_tries verbose x0 (Some p) st
         = (Raise (AssertionError "number of processes must be positive"), st))
  /\ (forall testing do_deriv do_unc p p',
         py_int p = py_int p' ->
         predict os testing do_deriv do_unc (Some p) st
         = predict os testing do_deriv do_unc (Some p') st)
  /\ (forall testing do_deriv do_unc p,
         (py_int p <= 0)%Z ->
         exists msg,
           predict os testing do_deriv do_unc (Some p) st
           = (Raise (AssertionError msg), st)).
Proof.
  repeat match goal with |- _ /\ _ => split end.
  - intros n_tries processes Hn Hx Hp.
    rewrite learn_hyperparameters_run by (assumption || lia). cbv zeta.
    destruct (starmap_result _ _ _ _) as [vals|e]; [|reflexivity].
    destruct (reevaluate (emulators (self st)) vals) as [r gps]. reflexivity.
  - intros processes. reflexivity.
  - intros n_tries processes Hn.
    apply learn_hyperparameters_rejects_n_tries, Hn.
  - intros processes. apply learn_hyperparameters_rejects_n_tries.
    vm_compute. discriminate.
  - intros n_tries n_tries' p p' Hn Hp.
    unfold learn_hyperparameters, check_processes. rewrite Hn, Hp. reflexivity.
  - intros n_tries p Hn Hx Hp.
    apply learn_hyperparameters_rejects_processes; auto. lia.
  - intros testing do_deriv do_unc p p' Hp.
    unfold predict, check_processes. rewrite Hp. reflexivity.
  - intros testing do_deriv do_unc p Hp.
    apply predict_rejects_processes, Hp.
Qed.

End Claims.

(** ** The statements on the arrays of the class docstring *)

Lemma Demo_constructed : constructed (GP := Demo.GP) Demo.st0.
Proof.
  exists Demo.x, Demo.y, [], Demo.mogp, (events Demo.st0).
  split; [reflexivity|apply life_start].
Qed.

Lemma Demo_loglikelihood_contract : loglikelihood_contract (GP := Demo.GP).
Proof.
  intros gp gp' theta score H. simpl in H. unfold Demo.loglikelihood in H.
  injection H as _ <-. reflexivity.
Qed.

Lemma Demo_predict_contract (gp : Demo.engine) :
  predict_contract (GP := Demo.GP) Demo.x_predict 2 3 gp.
Proof.
  do 3 eexists. split; [reflexivity|]. repeat split.
Qed.

Lemma learn_hyperparameters_in_engine_order_witness :
  length Demo.fit_vals = 2
  /\ forall os processes,
       valid_processes processes ->
       fst (learn_hyperparameters (GP := Demo.GP) os (PyInt 15) false None
              processes Demo.st0)
       = Ok Demo.fit_vals.
Proof.
  apply (learn_hyperparameters_in_engine_order (GP := Demo.GP)
           Demo.st0 (PyInt 15) false None Demo.fit_vals).
  - apply Demo_constructed.
  - reflexivity.
  - exact I.
  - repeat constructor.
  - reflexivity.
Defined.

Lemma predict_shapes_witness :
  exists means variances derivatives,
    shape means = [2; 2] /\ shape variances = [2; 2]
    /\ shape derivatives = [2; 2; 3]
    /\ forall os do_deriv do_unc processes,
         valid_processes processes ->
         fst (predict (GP := Demo.GP) os Demo.x_predict do_deriv do_unc
                processes Demo.st0)
         = Ok (means,
               if do_unc then Some variances else None,
               if do_deriv then Some derivatives else None).
Proof.
  destruct (predict_shapes (GP := Demo.GP) Demo.st0 Demo.x_predict 2)
    as (vals & means & variances & derivatives
        & _ & _ & _ & _ & Hm & Hv & Hd & Hrun).
  - apply Demo_constructed.
  - simpl; lia.
  - reflexivity.
  - repeat constructor; apply Demo_predict_contract.
  - exists means, variances, derivatives. auto.
Defined.

Lemma learn_hyperparameters_resynchronises_witness :
  reevaluate (GP := Demo.GP) (emulators (self Demo.st0)) Demo.fit_vals
  = (Ok tt, emulators (self Demo.st1))
  /\ Forall2 (fun gp res => Demo.e_theta gp = Some (snd res))
       (emulators (self Demo.st1)) Demo.fit_vals.
Proof.
  apply (learn_hyperparameters_resynchronises (GP := Demo.GP)
           Demo.st0 Demo.st1 Demo.os4 (PyInt 15) false None None Demo.fit_vals).
  - apply Demo_loglikelihood_contract.
  - reflexivity.
Defined.

Lemma targets_1D_as_single_row_witness :
  MultiOutputGP_init (GP := Demo.GP) Demo.x Demo.row0 []
  = MultiOutputGP_init (GP := Demo.GP) Demo.x
      {| shape := [1; 2]; data := [4; 6]%Z |} []
  /\ forall me tr',
       MultiOutputGP_init (GP := Demo.GP) Demo.x Demo.row0 [] = (Ok me, tr') ->
       n_emulators me = 1 /\ n me = 2
       /\ shape Demo.x = [2; D me]
       /\ exists gp,
            emulators me = [gp]
            /\ Demo.init Demo.x Demo.row0 = Ok gp.
Proof.
  apply (targets_1D_as_single_row (GP := Demo.GP) Demo.x [4; 6]%Z 2 []).
  reflexivity.
Defined.

Lemma construction_invariant_witness :
  shape Demo.x = [2; 3]
  /\ length (emulators Demo.mogp) = 2
  /\ exists rows,
       length rows = 2
       /\ Forall (fun row => shape row = [2] /\ length (data row) = 2) rows
       /\ concat (map data rows) = data Demo.y
       /\ Forall2 (fun row gp => Demo.init Demo.x row = Ok gp)
            rows (emulators Demo.mogp).
Proof.
  apply (construction_invariant (GP := Demo.GP) Demo.x Demo.y []
           (events Demo.st0) Demo.mogp).
  - reflexivity.
  - reflexivity.
Defined.

(** C5, the claim as stated fails: from a design matrix and a target table
    without any element, the constructor returns a collection with
    [n = 0], [D = 0] and no emulator; no engine constructor is involved. *)
Lemma construction_of_empty_collection :
  exists me tr,
    MultiOutputGP_init (GP := Demo.GP) Demo.empty Demo.empty [] = (Ok me, tr)
    /\ ~ (1 <= n me /\ 1 <= D me /\ 1 <= n_emulators me)
    /\ n me = 0 /\ D me = 0 /\ n_emulators me = 0 /\ emulators me = [].
Proof.
  exists {| emulators := []; n_emulators := 0; n := 0; D := 0 |}, [].
  split; [reflexivity|]. simpl. repeat split. lia.
Qed.

Lemma mismatched_dimensions_rejected_witness :
  MultiOutputGP_init (GP := Demo.GP) Demo.x Demo.v3 []
  = (Raise (ValueError "the first dimension of inputs must be the same length as the second dimension of targets (or first if targets is 1D))"), []).
Proof.
  apply (mismatched_dimensions_rejected (GP := Demo.GP) Demo.x Demo.v3 []).
  - reflexivity.
  - reflexivity.
  - left; reflexivity.
  - vm_compute; lia.
Defined.

Lemma wrong_rank_rejected_witness :
  MultiOutputGP_init (GP := Demo.GP) Demo.v3 Demo.v3 []
  = (Raise (ValueError "inputs must be 2D array"), [])
  /\ MultiOutputGP_init (GP := Demo.GP) Demo.x
       {| shape := [1; 1; 2]; data := [4; 6]%Z |} []
     = (Raise (ValueError "targets must be either a 1D or 2D array"), []).
Proof.
  split.
  - apply (proj1 (wrong_rank_rejected (GP := Demo.GP)) Demo.v3 Demo.v3 []).
    + reflexivity.
    + left; reflexivity.
    + vm_compute; lia.
  - apply (proj2 (wrong_rank_rejected (GP := Demo.GP)) Demo.x
             {| shape := [1; 1; 2]; data := [4; 6]%Z |} []).
    + vm_compute; lia.
    + vm_compute; lia.
Defined.

(** C7, the claim as stated fails: the error raised for a one-dimensional
    [inputs] does not carry the message "inputs must be 2D". *)
Lemma inputs_rank_message_differs :
  exists msg,
    MultiOutputGP_init (GP := Demo.GP) Demo.v3 Demo.v3 []
    = (Raise (ValueError msg), [])
    /\ msg <> "inputs must be 2D".
Proof.
  exists "inputs must be 2D array". split; [reflexivity|discriminate].
Qed.

Lemma invalid_arguments_rejected_before_dispatch_witness :
  (exists msg,
      learn_hyperparameters (GP := Demo.GP) Demo.os4 (PyInt 0) false None None
        Demo.st0
      = (Raise (AssertionError msg), Demo.st0))
  /\ (exists msg,
         learn_hyperparameters (GP := Demo.GP) Demo.os4 (PyInt 15) false
           (Some [1; 2; 3]%Z) None Demo.st0
         = (Raise (AssertionError msg), Demo.st0))
  /\ (exists msg,
         predict (GP := Demo.GP) Demo.os4 Demo.x_predict true true
           (Some (PyInt (-2))) Demo.st0
         = (Raise (AssertionError msg), Demo.st0)).
Proof.
  pose proof (invalid_arguments_rejected_before_dispatch (GP := Demo.GP)
                Demo.st0 Demo.os4) as [Hfit Hpredict].
  split; [|split].
  - apply Hfit. left. cbv [nonpositive]. lia.
  - apply Hfit. right. right. exists [1; 2; 3]%Z.
    split; [reflexivity|vm_compute; lia].
  - apply Hpredict. cbv [nonpositive]. lia.
Defined.

Lemma accessors_fixed_for_life_witness :
  get_n_emulators Demo.st1 = (Ok 2, Demo.st1)
  /\ get_n Demo.st1 = (Ok 2, Demo.st1)
  /\ get_D Demo.st1 = (Ok 3, Demo.st1).
Proof.
  apply (accessors_fixed_for_life (GP := Demo.GP) Demo.x Demo.y []
           (events Demo.st0) Demo.mogp 2 3 2 Demo.st1).
  - reflexivity.
  - reflexivity.
  - reflexivity.
  - exact (life_learn_hyperparameters Demo.st0 Demo.os4 (PyInt 15) false None
             None Demo.st0 (life_start Demo.st0)).
Defined.

Lemma integer_arguments_are_truncated_witness :
  events (snd (learn_hyperparameters (GP := Demo.GP) Demo.os4
                 (PyFloat (159 # 10)) false None (Some (PyFloat (25 # 10)))
                 Demo.st0))
  = events Demo.st0
    ++ [Ev_Pool 2; Ev_starmap (Call_learn_hyperparameters 15 false None) 2].
Proof.
  apply (proj1 (integer_arguments_are_truncated (GP := Demo.GP)
                  Demo.st0 Demo.os4 false None)
           (PyFloat (159 # 10)) (Some (PyFloat (25 # 10)))).
  - vm_compute. discriminate.
  - exact I.
  - reflexivity.
Defined.

(** C2, the claim as stated fails: the constructor returns a collection for a
    target table without rows, and on that collection [predict] raises a
    [ValueError] for a valid query table instead of returning arrays. *)
Lemma predict_on_empty_collection_raises :
  MultiOutputGP_init (GP := Demo.GP) Demo.x Demo.no_targets []
  = (Ok Demo.mogp_none, [])
  /\ shape Demo.x_predict = [2; D Demo.mogp_none]
  /\ fst (predict (GP := Demo.GP) Demo.os1 Demo.x_predict true true None
            {| self := Demo.mogp_none; events := [] |})
     = Raise (ValueError "not enough values to unpack (expected 3, got 0)").
Proof. repeat split. Qed.

(** * Further properties of the class *)

(** ** Where an error of the pool comes from *)

Section PoolErrors.

Context {A B : Type}.
Variable f : A -> outcome B.

(** [mapO] raises what the first failing element raises. *)
Lemma mapO_raise_from (l : list A) (e : exn) :
  mapO f l = Raise e -> exists x, In x l /\ f x = Raise e.
Proof.
  induction l as [|x l IH]; simpl; [discriminate|].
  destruct (f x) as [y|e0] eqn:Ex.
  - destruct (mapO f l) as [ys|e1]; [discriminate|].
    intros [= <-]. destruct IH as (z & Hz & Hf); [reflexivity|].
    exists z; auto.
  - intros [= <-]. exists x; auto.
Qed.

Lemma In_firstn_skipn (c a : nat) (l : list A) (x : A) :
  In x (firstn c (skipn a l)) -> In x l.
Proof.
  intros H.
  rewrite <- (firstn_skipn a l). apply in_or_app. right.
  rewrite <- (firstn_skipn c (skipn a l)). apply in_or_app. left. exact H.
Qed.

(** A failure recorded by the result was raised by one of the batches. *)
Lemma run_batches_Failed_from (chunksize : nat) (oracle : nat -> nat)
    (fuel step : nat) (pending : list (nat * list A)) (v : list (option B))
    (e : exn) :
  run_batches chunksize f oracle fuel step pending (Collecting v) = Failed e ->
  exists i b, In (i, b) pending /\ mapO f b = Raise e.
Proof.
  revert step pending v; induction fuel as [|fuel IH]; intros step pending v;
    simpl; [discriminate|].
  destruct (nth_error pending (oracle step mod length pending))
    as [[i b]|] eqn:Ek; [|discriminate].
  destruct (mapO f b) as [res|e'] eqn:Eb; simpl.
  - intros H. destruct (IH _ _ _ H) as (i' & b' & Hin & Hb').
    exists i', b'. split; [eapply remove_nth_In; eauto|assumption].
  - rewrite run_batches_Failed. intros [= <-].
    exists i, b. split; [eapply nth_error_In; eauto|assumption].
Qed.

(** What [starmap] raises was raised by a call on one of the items. *)
Lemma starmap_result_raise_from (workers : nat) (oracle : nat -> nat)
    (l : list A) (e : exn) :
  starmap_result workers oracle f l = Raise e ->
  exists x, In x l /\ f x = Raise e.
Proof.
  intros Hs.
  destruct (mapO f l) as [r|e0] eqn:Em.
  { rewrite (starmap_result_returns f workers oracle _ _ Em) in Hs.
    discriminate. }
  destruct l as [|x0 l0]; [discriminate|].
  set (l := x0 :: l0) in *.
  assert (Hc : 0 < chunksize_for (length l) workers)
    by (apply chunksize_for_pos; simpl; lia).
  unfold starmap_result in Hs.
  set (c := chunksize_for (length l) workers) in *.
  set (pending := enumerate 0 (get_tasks (length l) c l)) in *.
  destruct (run_batches c f oracle (length pending) 0 pending
              (Collecting (repeat None (length l)))) as [v|e'] eqn:Er.
  - exfalso.
    destruct (mapO_raise_In f _ _ Em) as (x & e1 & Hx & Hfx).
    destruct (In_nth_error _ _ Hx) as [j Hj].
    assert (Hjl : j < length l) by (apply nth_error_Some; congruence).
    pose proof (Nat.div_mod_eq j c).
    pose proof (Nat.mod_upper_bound j c ltac:(lia)).
    destruct (run_batches_raises f c oracle (length pending) 0 pending
                (Collecting (repeat None (length l)))) as [e2 He2]; [lia| |].
    + assert (Hb : In x (firstn c (skipn (j / c * c) l))).
      { apply nth_error_In with (n := j mod c).
        rewrite nth_error_firstn, nth_error_skipn.
        destruct (Nat.ltb_spec (j mod c) c); [|lia].
        rewrite <- Hj. f_equal. lia. }
      destruct (In_mapO_raise f _ _ _ Hb Hfx) as [e2 He2].
      exists (j / c), (firstn c (skipn (j / c * c) l)), e2.
      split; [apply pending_good; auto; split; [nia|reflexivity]|assumption].
    + congruence.
  - simpl in Hs. injection Hs as ->.
    destruct (run_batches_Failed_from _ _ _ _ _ _ _ Er) as (i & b & Hin & Hb).
    apply pending_good in Hin; [|exact Hc]. destruct Hin as [_ ->].
    destruct (mapO_raise_from _ _ Hb) as (x & Hx & Hfx).
    exists x. split; [eapply In_firstn_skipn; eauto|assumption].
Qed.

End PoolErrors.

(** ** The summary string *)

Lemma append_inv_head (s a b : string) :
  (s ++ a)%string = (s ++ b)%string -> a = b.
Proof. induction s as [|c s IH]; simpl; [trivial|]. intros [= H]. auto. Qed.

Lemma string_of_uint_digits (d : Decimal.uint) :
  all_digits (NilEmpty.string_of_uint d) = true.
Proof. induction d; simpl; auto. Qed.

(** Two runs of digits, each followed by a character that is no digit, are
    the same run when the whole strings are the same. *)
Lemma digits_then_other (s s' t t' : string) (c c' : ascii) :
  all_digits s = true -> all_digits s' = true ->
  is_digit c = false -> is_digit c' = false ->
  (s ++ String c t)%string = (s' ++ String c' t')%string ->
  s = s' /\ t = t'.
Proof.
  revert s'; induction s as [|a s IH]; intros [|a' s']; simpl;
    intros Hs Hs' Hc Hc'.
  - intros [= _ ->]. auto.
  - intros [= -> _]. apply andb_prop in Hs'. destruct Hs'. congruence.
  - intros [= -> _]. apply andb_prop in Hs. destruct Hs. congruence.
  - intros [= -> H]. apply andb_prop in Hs, Hs'.
    destruct (IH s') as [-> ->]; tauto.
Qed.

Lemma py_str_inj (a b : nat) : py_str a = py_str b -> a = b.
Proof.
  unfold py_str. intros H.
  apply (f_equal NilEmpty.uint_of_string) in H.
  rewrite !NilEmpty.usu in H. injection H as H.
  apply Unsigned.to_uint_inj, H.
Qed.

Section Extras.

Context {F engine : Type} `{GP : GaussianProcess F engine}.

(** X1: [__str__] always returns, leaves the object as it is, and the string
    it returns tells the three scalars apart: two collections with the same
    summary have the same number of emulators, of training examples and of
    input variables. *)
Theorem summary_determines_scalars (st1 st2 : state F engine) :
  fst (MultiOutputGP_str st1) = fst (MultiOutputGP_str st2) ->
  (exists s, MultiOutputGP_str st1 = (Ok s, st1))
  /\ n_emulators (self st1) = n_emulators (self st2)
  /\ n (self st1) = n (self st2)
  /\ D (self st1) = D (self st2).
Proof.
  unfold MultiOutputGP_str, get_n_emulators, get_n, get_D. run_py. simpl.
  intros [= H]. split; [eexists; reflexivity|].
  apply digits_then_other in H;
    try apply string_of_uint_digits; try reflexivity.
  destruct H as [H1 [= H]].
  apply digits_then_other in H;
    try apply string_of_uint_digits; try reflexivity.
  destruct H as [H2 [= H]].
  apply digits_then_other in H;
    try apply string_of_uint_digits; try reflexivity.
  destruct H as [H3 _].
  split; [apply py_str_inj, H1|].
  split; apply py_str_inj; assumption.
Qed.

(** The rows the constructor iterates over are [targets[0]], [targets[1]],
    and so on. *)
Lemma pieces_rows (m k : nat) (targets : ndarray F) :
  map (fun r => {| shape := [k]; data := r |}) (pieces m k (data targets))
  = map (target_row targets k) (seq 0 m).
Proof.
  unfold target_row.
  assert (H : forall m (l : list F) s,
             map (fun r => {| shape := [k]; data := r |})
               (pieces m k (skipn (s * k) l))
             = map (fun i => {| shape := [k];
                                data := firstn k (skipn (i * k) l) |})
                 (seq s m)).
  { clear m. induction m as [|m IH]; intros l s; simpl; [reflexivity|].
    f_equal. rewrite skipn_skipn.
    replace (k + s * k) with (S s * k) by lia. apply IH. }
  apply (H m (data targets) 0).
Qed.

Lemma Forall2_by_index {X Y} (P : X -> Y -> Prop) (g : nat -> X)
    (ys : list Y) (s : nat) :
  (forall i y, nth_error ys i = Some y -> P (g (s + i)) y) ->
  Forall2 P (map g (seq s (length ys))) ys.
Proof.
  revert s; induction ys as [|y ys IH]; intros s H; simpl; constructor.
  - rewrite <- (Nat.add_0_r s). apply H. reflexivity.
  - apply IH. intros i y' Hi.
    replace (S s + i) with (s + S i) by lia. apply H. exact Hi.
Qed.

(** The engine constructions stop at the first one that raises. *)
Lemma mapM_new_GaussianProcess_raises (inputs : ndarray F)
    (pre post : list (ndarray F)) (row : ndarray F) (gps : list engine)
    (e : exn) (tr : list (event F)) :
  Forall2 (fun r gp => GaussianProcess_init inputs r = Ok gp) pre gps ->
  GaussianProcess_init inputs row = Raise e ->
  mapM (fun single_target => new_GaussianProcess inputs single_target)
    (pre ++ row :: post) tr
  = (Raise e, tr ++ map (Ev_GaussianProcess inputs) (pre ++ [row])).
Proof.
  intros Hpre Hrow. revert tr.
  induction Hpre as [|r gp pre gps Hr _ IH]; intros tr; simpl.
  - unfold new_GaussianProcess. run_py. rewrite Hrow. reflexivity.
  - unfold new_GaussianProcess at 1. run_py. rewrite Hr, IH, <- app_assoc.
    reflexivity.
Qed.

(** X2: when [inputs] has shape [(n, D)], [targets] has shape
    [(n_emulators, n)] and the engine constructor returns for every row, the
    constructor returns the collection of these engines, engine [i] being
    the one built from the shared [inputs] and the row [targets[i]], after
    having constructed them in row order. *)
Theorem construction_builds_one_engine_per_row
    (inputs targets : ndarray F) (tr : list (event F)) (n0 d : nat)
    (gps : list engine) :
  shape inputs = [n0; d] ->
  shape targets = [length gps; n0] ->
  (forall i gp, nth_error gps i = Some gp ->
     GaussianProcess_init inputs (target_row targets n0 i) = Ok gp) ->
  MultiOutputGP_init inputs targets tr
  = (Ok {| emulators := gps; n_emulators := length gps; n := n0; D := d |},
     tr ++ map (fun i => Ev_GaussianProcess inputs (target_row targets n0 i))
             (seq 0 (length gps))).
Proof.
  intros Hi Ht Hrows.
  rewrite MultiOutputGP_init_2D with (n0 := n0) (d := d) (m := length gps)
    by assumption.
  rewrite Nat.mul_1_r, pieces_rows.
  rewrite mapM_new_GaussianProcess_returns with (gps := gps).
  - rewrite map_map. reflexivity.
  - apply Forall2_by_index with (s := 0). exact Hrows.
Qed.

(** X3: when the engine constructor returns for the rows before row [k] and
    raises for row [k], the constructor raises that error and returns no
    collection; it has constructed the engines of rows [0] to [k] and none
    for a later row. *)
Theorem construction_stops_at_first_failing_engine
    (inputs targets : ndarray F) (tr : list (event F)) (n0 d m : nat)
    (gps : list engine) (e : exn) :
  shape inputs = [n0; d] ->
  shape targets = [m; n0] ->
  length gps < m ->
  (forall i gp, nth_error gps i = Some gp ->
     GaussianProcess_init inputs (target_row targets n0 i) = Ok gp) ->
  GaussianProcess_init inputs (target_row targets n0 (length gps)) = Raise e ->
  MultiOutputGP_init inputs targets tr
  = (Raise e,
     tr ++ map (fun i => Ev_GaussianProcess inputs (target_row targets n0 i))
             (seq 0 (S (length gps)))).
Proof.
  intros Hi Ht Hk Hrows Hfail.
  rewrite MultiOutputGP_init_2D with (n0 := n0) (d := d) (m := m)
    by assumption.
  rewrite Nat.mul_1_r, pieces_rows, (seq_S (length gps) 0).
  replace m with (length gps + S (m - S (length gps))) by lia.
  rewrite seq_app, map_app. simpl seq. simpl map.
  rewrite mapM_new_GaussianProcess_raises with (gps := gps) (e := e).
  - rewrite !map_app, map_map. reflexivity.
  - apply Forall2_by_index with (s := 0). exact Hrows.
  - exact Hfail.
Qed.

(** X4: when the arguments are valid and the fit of some engine raises,
    [learn_hyperparameters] raises an error that the fit of one of its
    engines raised, after one dispatch, and no engine of the collection has
    been changed: the likelihood re-evaluation is never reached. *)
Theorem failed_fit_leaves_engines_untouched
    (st : state F engine) (os : OS) (n_tries : pynum) (verbose : bool)
    (x0 : option (list F)) (processes : option pynum)
    (gp0 : engine) (e0 : exn) :
  (0 < py_int n_tries)%Z ->
  valid_x0 (self st) x0 ->
  valid_processes processes ->
  In gp0 (emulators (self st)) ->
  GaussianProcess_learn_hyperparameters gp0 (py_int n_tries) verbose
    (option_map np_array1 x0) = Raise e0 ->
  exists gp e,
    In gp (emulators (self st))
    /\ GaussianProcess_learn_hyperparameters gp (py_int n_tries) verbose
         (option_map np_array1 x0) = Raise e
    /\ learn_hyperparameters os n_tries verbose x0 processes st
       = (Raise e,
          {| self := self st;
             events := events st
               ++ [Ev_Pool (pool_size os processes);
                   Ev_starmap
                     (Call_learn_hyperparameters (py_int n_tries) verbose
                        (option_map np_array1 x0))
                     (length (emulators (self st)))] |}).
Proof.
  intros Hn Hx Hp Hin Hfail.
  rewrite learn_hyperparameters_run by assumption. cbv zeta.
  destruct (starmap_result _ _ _ _) as [vals|e] eqn:Es.
  - apply starmap_result_iff in Es.
    destruct (In_mapO_raise
                (fun g => GaussianProcess_learn_hyperparameters g
                            (py_int n_tries) verbose (option_map np_array1 x0))
                _ _ _ Hin Hfail) as [e' He'].
    congruence.
  - destruct (starmap_result_raise_from _ _ _ _ _ Es) as (gp & Hgp & He).
    exists gp, e. auto.
Qed.

Lemma reevaluate_raises (pre post : list engine)
    (vpre vpost : list (F * ndarray F)) (pre' : list engine)
    (gp gp' : engine) (loglike : F) (theta : ndarray F) (e : exn) :
  length pre = length vpre ->
  reevaluate pre vpre = (Ok tt, pre') ->
  GaussianProcess_loglikelihood gp theta = (Raise e, gp') ->
  reevaluate (pre ++ gp :: post) (vpre ++ (loglike, theta) :: vpost)
  = (Raise e, pre' ++ gp' :: post).
Proof.
  intros Hlen Hpre Hgp. revert vpre pre' Hlen Hpre.
  induction pre as [|a pre IH]; intros [|[l t] vpre] pre' Hlen; simpl;
    try discriminate.
  - intros [= <-]. rewrite Hgp. reflexivity.
  - destruct (GaussianProcess_loglikelihood a t) as [[score|e1] a'];
      [|discriminate].
    destruct (reevaluate pre vpre) as [r pre1] eqn:Er.
    intros [= -> <-].
    rewrite (IH vpre pre1); [reflexivity|simpl in Hlen; lia|exact Er].
Qed.

(** X5: when the arguments are valid, every fit returns and the likelihood
    of one engine raises while those of the engines before it return,
    [learn_hyperparameters] raises that error and the update is partial: the
    engines before are the re-evaluated ones, the failing engine is as its
    likelihood call left it, and the engines after it are untouched. *)
Theorem failed_reevaluation_is_partial
    (st : state F engine) (os : OS) (n_tries : pynum) (verbose : bool)
    (x0 : option (list F)) (processes : option pynum)
    (pre post pre' : list engine) (gp gp' : engine)
    (vpre vpost : list (F * ndarray F)) (loglike : F) (theta : ndarray F)
    (e : exn) :
  (0 < py_int n_tries)%Z ->
  valid_x0 (self st) x0 ->
  valid_processes processes ->
  emulators (self st) = pre ++ gp :: post ->
  Forall2 (fun g res =>
             GaussianProcess_learn_hyperparameters g (py_int n_tries) verbose
               (option_map np_array1 x0) = Ok res)
          (emulators (self st)) (vpre ++ (loglike, theta) :: vpost) ->
  length pre = length vpre ->
  reevaluate pre vpre = (Ok tt, pre') ->
  GaussianProcess_loglikelihood gp theta = (Raise e, gp') ->
  learn_hyperparameters os n_tries verbose x0 processes st
  = (Raise e,
     {| self := {| emulators := pre' ++ gp' :: post;
                   n_emulators := n_emulators (self st);
                   n := n (self st); D := D (self st) |};
        events := events st
          ++ [Ev_Pool (pool_size os processes);
              Ev_starmap
                (Call_learn_hyperparameters (py_int n_tries) verbose
                   (option_map np_array1 x0))
                (length (emulators (self st)))] |}).
Proof.
  intros Hn Hx Hp Hems Hfit Hlen Hpre Hgp.
  rewrite learn_hyperparameters_run by assumption. cbv zeta.
  apply mapO_Forall2 in Hfit.
  rewrite (starmap_result_returns _ (pool_size os processes)
             (completion os) _ _ Hfit).
  rewrite Hems at 1.
  rewrite (reevaluate_raises _ _ _ _ _ _ _ _ _ _ Hlen Hpre Hgp).
  reflexivity.
Qed.

(** X6: [predict] never changes the collection: whatever its arguments and
    whether it returns or raises, the object it leaves (the engines with the
    parameters they hold, and the three scalars) is the object it found. *)
Theorem predict_never_changes_the_collection
    (st : state F engine) (os : OS) (testing : ndarray F)
    (do_deriv do_unc : bool) (processes : option pynum) :
  self (snd (predict os testing do_deriv do_unc processes st)) = self st.
Proof.
  symmetry.
  apply (keeps_predict (fun a b => a = b)); [reflexivity|congruence].
Qed.

(** X7: [predict] checks the query table before anything else: a table that
    is not two-dimensional, or whose second dimension is not [D], raises the
    corresponding [AssertionError] whatever [processes] is, and the state is
    as it was (no pool, no dispatch). *)
Theorem predict_checks_testing_first
    (st : state F engine) (os : OS) (testing : ndarray F)
    (do_deriv do_unc : bool) (processes : option pynum) :
  (ndim testing <> 2 ->
   predict os testing do_deriv do_unc processes st
   = (Raise (AssertionError "testing must be a 2D array"), st))
  /\ (forall q d,
         shape testing = [q; d] -> d <> D (self st) ->
         predict os testing do_deriv do_unc processes st
         = (Raise (AssertionError "second dimension of testing must be the same as the number of input parameters"), st)).
Proof.
  split.
  - intros Hr. unfold predict. unfold bind at 1, assert at 1.
    destruct (Nat.eqb_spec (ndim testing) 2); [contradiction|reflexivity].
  - intros q d Hs Hd. unfold predict, ndim, shape_at. rewrite Hs.
    cbn [length Nat.eqb nth_error]. run_py.
    destruct (Nat.eqb_spec d (D (self st))); [contradiction|reflexivity].
Qed.

(** X8: [learn_hyperparameters] checks [n_tries] before [x0] and [x0] before
    [processes]: with an [x0] of a wrong length it raises the [n_tries]
    assertion when [int(n_tries) <= 0] and the [x0] assertion otherwise,
    whatever [processes] is, and the state is as it was. *)
Theorem learn_hyperparameters_checks_in_order
    (st : state F engine) (os : OS) (n_tries : pynum) (verbose : bool)
    (x : list F) (processes : option pynum) :
  length x <> D (self st) + 2 ->
  learn_hyperparameters os n_tries verbose (Some x) processes st
  = (Raise (AssertionError
              (if (0 <? py_int n_tries)%Z
               then "x0 must have length of number of input parameters D + 2"
               else "n_tries must be a positive integer")), st).
Proof.
  intros Hx. destruct (Z.ltb_spec 0 (py_int n_tries)) as [Hn|Hn].
  - apply learn_hyperparameters_rejects_x0; assumption.
  - apply learn_hyperparameters_rejects_n_tries, Hn.
Qed.

(** X9: a constructed collection holds exactly [n_emulators] engines at every
    point of its life, and a call with valid arguments dispatches exactly
    [n_emulators] tasks to one pool: fit tasks for [learn_hyperparameters],
    prediction tasks on the query table for [predict]. *)
Theorem one_task_per_emulator
    (st : state F engine) (os : OS) (n_tries : pynum) (verbose : bool)
    (x0 : option (list F)) (processes : option pynum)
    (testing : ndarray F) (q : nat) (do_deriv do_unc : bool) :
  constructed st ->
  (0 < py_int n_tries)%Z ->
  valid_x0 (self st) x0 ->
  valid_processes processes ->
  shape testing = [q; D (self st)] ->
  length (emulators (self st)) = n_emulators (self st)
  /\ events (snd (learn_hyperparameters os n_tries verbose x0 processes st))
     = events st
       ++ [Ev_Pool (pool_size os processes);
           Ev_starmap
             (Call_learn_hyperparameters (py_int n_tries) verbose
                (option_map np_array1 x0))
             (n_emulators (self st))]
  /\ events (snd (predict os testing do_deriv do_unc processes st))
     = events st
       ++ [Ev_Pool (pool_size os processes);
           Ev_starmap (Call_predict testing) (n_emulators (self st))].
Proof.
  intros Hc Hn Hx Hp Ht.
  pose proof (constructed_length _ Hc) as Hlen.
  split; [exact Hlen|]. split.
  - rewrite learn_hyperparameters_run by assumption. cbv zeta.
    rewrite Hlen.
    destruct (starmap_result _ _ _ _) as [vals|e]; [|reflexivity].
    destruct (reevaluate (emulators (self st)) vals) as [r gps]. reflexivity.
  - rewrite predict_run with (q := q) by assumption. cbv zeta.
    rewrite Hlen.
    destruct (starmap_result _ _ _ _) as [vals|e]; [|reflexivity].
    destruct (mapO np_array_of (zip_star vals)) as [arrays|e]; [|reflexivity].
    destruct arrays as [|a [|b [|c [|d arrays]]]]; reflexivity.
Qed.

(** X10: when the query table and [processes] are valid and the prediction
    of some engine raises, [predict] raises an error that the prediction of
    one of its engines raised, after one dispatch, and returns no arrays. *)
Theorem failed_prediction_aborts_the_call
    (st : state F engine) (os : OS) (testing : ndarray F) (q : nat)
    (do_deriv do_unc : bool) (processes : option pynum)
    (gp0 : engine) (e0 : exn) :
  shape testing = [q; D (self st)] ->
  valid_processes processes ->
  In gp0 (emulators (self st)) ->
  GaussianProcess_predict gp0 testing = Raise e0 ->
  exists gp e,
    In gp (emulators (self st))
    /\ GaussianProcess_predict gp testing = Raise e
    /\ predict os testing do_deriv do_unc processes st
       = (Raise e,
          {| self := self st;
             events := events st
               ++ [Ev_Pool (pool_size os processes);
                   Ev_starmap (Call_predict testing)
                     (length (emulators (self st)))] |}).
Proof.
  intros Ht Hp Hin Hfail.
  rewrite predict_run with (q := q) by assumption. cbv zeta.
  destruct (starmap_result _ _ _ _) as [vals|e] eqn:Es.
  - apply starmap_result_iff in Es.
    destruct (In_mapO_raise (fun g => GaussianProcess_predict g testing)
                _ _ _ Hin Hfail) as [e' He'].
    congruence.
  - destruct (starmap_result_raise_from _ _ _ _ _ Es) as (gp & Hgp & He).
    exists gp, e. auto.
Qed.

(** X11: on a collection without engines, [learn_hyperparameters] with valid
    arguments returns the empty list and leaves the object as it is, while
    [predict] with a valid query table raises a [ValueError]: it has no
    triple to unpack. *)
Theorem methods_on_an_empty_collection
    (st : state F engine) (os : OS) (n_tries : pynum) (verbose : bool)
    (x0 : option (list F)) (processes : option pynum)
    (testing : ndarray F) (q : nat) (do_deriv do_unc : bool) :
  emulators (self st) = [] ->
  (0 < py_int n_tries)%Z ->
  valid_x0 (self st) x0 ->
  valid_processes processes ->
  shape testing = [q; D (self st)] ->
  fst (learn_hyperparameters os n_tries verbose x0 processes st) = Ok []
  /\ self (snd (learn_hyperparameters os n_tries verbose x0 processes st))
     = self st
  /\ fst (predict os testing do_deriv do_unc processes st)
     = Raise (ValueError "not enough values to unpack (expected 3, got 0)").
Proof.
  intros He Hn Hx Hp Ht.
  rewrite learn_hyperparameters_run by assumption.
  rewrite predict_run with (q := q) by assumption. cbv zeta.
  rewrite He. unfold starmap_result. simpl.
  repeat split. destruct st as [[ems k1 k2 k3] evs]. simpl in *.
  subst ems. reflexivity.
Qed.

End Extras.

(** ** The further properties on concrete collections *)

Lemma summary_determines_scalars_witness :
  (exists s, MultiOutputGP_str Demo.st0 = (Ok s, Demo.st0))
  /\ n_emulators (self Demo.st0) = n_emulators (self Demo.st1)
  /\ n (self Demo.st0) = n (self Demo.st1)
  /\ D (self Demo.st0) = D (self Demo.st1).
Proof.
  apply (summary_determines_scalars Demo.st0 Demo.st1). reflexivity.
Defined.

Lemma construction_builds_one_engine_per_row_witness :
  MultiOutputGP_init (GP := Demo.GP) Demo.x Demo.y []
  = (Ok Demo.mogp, events Demo.st0).
Proof.
  apply (construction_builds_one_engine_per_row (GP := Demo.GP)
           Demo.x Demo.y [] 2 3 (emulators Demo.mogp)).
  - reflexivity.
  - reflexivity.
  - intros [|[|i]] gp H; simpl in H.
    + injection H as <-. reflexivity.
    + injection H as <-. reflexivity.
    + destruct i; discriminate.
Defined.

Lemma construction_stops_at_first_failing_engine_witness :
  MultiOutputGP_init (GP := Fragile.GP) Demo.x Fragile.y_negative []
  = (Raise (EngineError "negative target"),
     [Ev_GaussianProcess Demo.x {| shape := [2]; data := [4; 6]%Z |};
      Ev_GaussianProcess Demo.x {| shape := [2]; data := [5; -7]%Z |}]).
Proof.
  apply (construction_stops_at_first_failing_engine (GP := Fragile.GP)
           Demo.x Fragile.y_negative [] 2 3 3 [Fragile.gp_of [4; 6]%Z]).
  - reflexivity.
  - reflexivity.
  - simpl; lia.
  - intros [|i] gp H; simpl in H.
    + injection H as <-. reflexivity.
    + destruct i; discriminate.
  - reflexivity.
Defined.

Lemma failed_fit_leaves_engines_untouched_witness :
  exists gp e,
    In gp (emulators (self Fragile.st_singular))
    /\ Fragile.fit gp 15 false None = Raise e
    /\ learn_hyperparameters (GP := Fragile.GP) Demo.os4 (PyInt 15) false None
         None Fragile.st_singular
       = (Raise e,
          {| self := self Fragile.st_singular;
             events := [Ev_Pool 4;
                        Ev_starmap (Call_learn_hyperparameters 15 false None) 3]
          |}).
Proof.
  apply (failed_fit_leaves_engines_untouched (GP := Fragile.GP)
           Fragile.st_singular Demo.os4 (PyInt 15) false None None
           (Fragile.gp_of [3; -3]%Z) (EngineError "singular matrix")).
  - reflexivity.
  - exact I.
  - exact I.
  - right; left; reflexivity.
  - reflexivity.
Defined.

Lemma failed_reevaluation_is_partial_witness :
  learn_hyperparameters (GP := Fragile.GP) Demo.os4 (PyInt 15) false None None
    Fragile.st_overflow
  = (Raise (EngineError "overflow"),
     {| self :=
          {| emulators :=
               [ {| Demo.e_inputs := Demo.x;
                    Demo.e_targets := {| shape := [2]; data := [4; 6]%Z |};
                    Demo.e_theta := Some Demo.theta15 |};
                 {| Demo.e_inputs := Demo.x;
                    Demo.e_targets := {| shape := [2]; data := [60; 70]%Z |};
                    Demo.e_theta := Some Demo.theta15 |};
                 {| Demo.e_inputs := Demo.x;
                    Demo.e_targets := {| shape := [2]; data := [5; 7]%Z |};
                    Demo.e_theta := None |} ];
             n_emulators := 3; n := 2; D := 3 |};
        events := [Ev_Pool 4;
                   Ev_starmap (Call_learn_hyperparameters 15 false None) 3] |}).
Proof.
  apply (failed_reevaluation_is_partial (GP := Fragile.GP)
           Fragile.st_overflow Demo.os4 (PyInt 15) false None None
           [Fragile.gp_of [4; 6]%Z] [Fragile.gp_of [5; 7]%Z]
           [ {| Demo.e_inputs := Demo.x;
                Demo.e_targets := {| shape := [2]; data := [4; 6]%Z |};
                Demo.e_theta := Some Demo.theta15 |} ]
           (Fragile.gp_of [60; 70]%Z)
           {| Demo.e_inputs := Demo.x;
              Demo.e_targets := {| shape := [2]; data := [60; 70]%Z |};
              Demo.e_theta := Some Demo.theta15 |}
           [(10%Z, Demo.theta15)] [(12%Z, Demo.theta15)] 130%Z Demo.theta15
           (EngineError "overflow")).
  - reflexivity.
  - exact I.
  - exact I.
  - reflexivity.
  - repeat constructor.
  - reflexivity.
  - reflexivity.
  - reflexivity.
Defined.

Lemma predict_checks_testing_first_witness :
  predict (GP := Demo.GP) Demo.os4 Demo.v3 true true (Some (PyInt 0)) Demo.st0
  = (Raise (AssertionError "testing must be a 2D array"), Demo.st0)
  /\ predict (GP := Demo.GP) Demo.os4 Demo.y true true (Some (PyInt 0)) Demo.st0
     = (Raise (AssertionError "second dimension of testing must be the same as the number of input parameters"), Demo.st0).
Proof.
  split.
  - apply (proj1 (predict_checks_testing_first (GP := Demo.GP) Demo.st0
                    Demo.os4 Demo.v3 true true (Some (PyInt 0)))).
    vm_compute; lia.
  - apply (proj2 (predict_checks_testing_first (GP := Demo.GP) Demo.st0
                    Demo.os4 Demo.y true true (Some (PyInt 0))) 2 2).
    + reflexivity.
    + vm_compute; lia.
Defined.

Lemma learn_hyperparameters_checks_in_order_witness :
  learn_hyperparameters (GP := Demo.GP) Demo.os4 (PyInt 15) false
    (Some [1; 2; 3]%Z) (Some (PyInt 0)) Demo.st0
  = (Raise (AssertionError
              "x0 must have length of number of input parameters D + 2"),
     Demo.st0).
Proof.
  apply (learn_hyperparameters_checks_in_order (GP := Demo.GP) Demo.st0
           Demo.os4 (PyInt 15) false [1; 2; 3]%Z (Some (PyInt 0))).
  vm_compute; lia.
Defined.

Lemma one_task_per_emulator_witness :
  length (emulators (self Demo.st0)) = 2
  /\ events (snd (learn_hyperparameters (GP := Demo.GP) Demo.os1 (PyInt 15)
                    false None (Some (PyInt 8)) Demo.st0))
     = events Demo.st0
       ++ [Ev_Pool 8; Ev_starmap (Call_learn_hyperparameters 15 false None) 2]
  /\ events (snd (predict (GP := Demo.GP) Demo.os1 Demo.x_predict true true
                    (Some (PyInt 8)) Demo.st0))
     = events Demo.st0
       ++ [Ev_Pool 8; Ev_starmap (Call_predict Demo.x_predict) 2].
Proof.
  apply (one_task_per_emulator (GP := Demo.GP) Demo.st0 Demo.os1 (PyInt 15)
           false None (Some (PyInt 8)) Demo.x_predict 2 true true).
  - apply Demo_constructed.
  - reflexivity.
  - exact I.
  - reflexivity.
  - reflexivity.
Defined.

Lemma failed_prediction_aborts_the_call_witness :
  exists gp e,
    In gp (emulators (self Fragile.st_singular))
    /\ Fragile.predict_one gp Demo.x_predict = Raise e
    /\ predict (GP := Fragile.GP) Demo.os4 Demo.x_predict true true None
         Fragile.st_singular
       = (Raise e,
          {| self := self Fragile.st_singular;
             events := [Ev_Pool 4; Ev_starmap (Call_predict Demo.x_predict) 3]
          |}).
Proof.
  apply (failed_prediction_aborts_the_call (GP := Fragile.GP)
           Fragile.st_singular Demo.os4 Demo.x_predict 2 true true None
           (Fragile.gp_of [3; -3]%Z) (EngineError "singular matrix")).
  - reflexivity.
  - exact I.
  - right; left; reflexivity.
  - reflexivity.
Defined.

Lemma methods_on_an_empty_collection_witness :
  fst (learn_hyperparameters (GP := Demo.GP) Demo.os4 (PyInt 15) false None
         None {| self := Demo.mogp_none; events := [] |})
  = Ok []
  /\ self (snd (learn_hyperparameters (GP := Demo.GP) Demo.os4 (PyInt 15)
                  false None None {| self := Demo.mogp_none; events := [] |}))
     = Demo.mogp_none
  /\ fst (predict (GP := Demo.GP) Demo.os4 Demo.x_predict true true None
            {| self := Demo.mogp_none; events := [] |})
     = Raise (ValueError "not enough values to unpack (expected 3, got 0)").
Proof.
  apply (methods_on_an_empty_collection (GP := Demo.GP)
           {| self := Demo.mogp_none; events := [] |} Demo.os4 (PyInt 15)
           false None None Demo.x_predict 2 true true).
  - reflexivity.
  - reflexivity.
  - exact I.
  - exact I.
  - reflexivity.
Defined.
